(* ===== verification/_CoqProject ===== *)
-Q . S2P
Prelude.v
Rng.v
PathGen.v
Simulation.v
Payoff.v
Pricer.v
Format.v
Report.v
Methodology.v
AsianOptions.v
