(* ===== verification/Prelude.v ===== *)
(** * Option-Price-Simulator: a verification development

    The repository prices path-dependent options by Monte Carlo simulation
    of geometric Brownian motion (GBM).  It consists of two Python scripts
    that share no code:

    - [src/Methodology.py]: [stock_price] builds one price history of
      [period] prices by the GBM recurrence from [period] draws of
      [np.random.randn]; [simulation] stacks [iterations] histories into a
      matrix; [option_price] discounts and truncates the payoff sum;
      [plotting] draws a histogram; [lookBackCallPrice],
      [lookBackPutPrice], [europeanCallPrice] and [europeanPutPrice] fill
      a payoff array by a loop, plot it and print the price.  Their default
      argument [sim=simulation()] is evaluated once, when the module is
      loaded, so loading the module runs four simulations in a row.
    - [src/AsianOptions.py]: a top-level script that seeds numpy with 42,
      draws an (M, N) matrix of normals, fills an (M, N+1) price matrix
      column by column, averages each row without its last column, and
      prices and plots the average-strike call and put.

    The two scripts interact only through numpy's global random state,
    which every simulation advances and [np.random.seed] resets.

    ** Files, in dependency order

    - [Prelude] (this file): Python's errors ([PyError]) and the error
      monad [result]; numpy's reductions [np_sum], [np_mean] (NaN is
      [None]), [np_min], [np_max] (ValueError on an empty vector),
      [py_last] ([vector[-1]], IndexError), Python's [max] ([py_max]) and
      [int] ([py_int]); the two shapes of index-writing loops
      ([carry_body], [prev_body]) with their lemmas [fold_carry] and
      [fold_prev]; the notations [Σ l] and [v.[i]] of [pricer_scope]; the
      tactic [result_inv]; the hint databases [pricer] and [pricer_rw].
    - [Rng]: numpy's global legacy random state as a stream of standard
      normal draws and a cursor ([RandomState]); [randn], [normal]
      (C-order fill) and [seed]; the state-and-error monad [PyM] and its
      Python loop [foldlM_py]; draws-only reachability ([rtc draw_step],
      characterised by [draw_reach_iff]: same stream, cursor not moved
      back) and the invariant [only_draws], closed under the monad's
      operations (hint database [rng]).
    - [PathGen]: [stock_price] of Methodology.py ([stock_step],
      [stock_price_loop]) and the price matrix of AsianOptions.py
      ([asian_step], [asian_init], [asian_fill]), both written as the
      index-writing loops of the source, and the reference scan
      [gbm_path] they are proved to compute.
    - [Simulation]: [simulation] of Methodology.py with numpy's row
      assignment [np_set_row].
    - [Payoff]: the six payoff rules, the payoff-array loop
      [payoff_loop], and the interfaces [NonnegPayoff] and [TotalPayoff]
      that each Methodology.py rule implements (instances) and that the
      pricer and the script theorems use.
    - [Pricer]: [option_price] of Methodology.py (with its price in ticks
      [option_price_ticks]) and [discounted_mean] of AsianOptions.py.
    - [Format]: the text of the printed numbers: [py_str_ticks] is
      Python's [str] of the float [k / 10000] that [option_price]
      returns, [format_2f] the format [{x:.2f}] (half-to-even rounding
      [round_half_even], ["nan"] for NaN), and [parse_decimal], the
      reading of such a text back into a number, with the round-trip
      lemmas that the claims on printed lines use.
    - [Report]: the reporting sink ([Event]: a histogram with its title,
      average line and legend text [average_legend], or a printed line).
    - [Methodology]: the module load [load_methodology] and the four
      [*Price] functions, whose report is the histogram and the line
      [label + str(option_price(payoffs))].
    - [AsianOptions]: the whole script, [Asian.script], in [PyM], with
      the shape of its globals [output_wf].

    ** Modelling choices

    Prices are real numbers ([R] of the Standard Library): numpy's
    binary64 rounding is not modelled and every theorem is about the
    exact-real reading of the code.  [np.sqrt(dt)] is Rocq's [sqrt],
    which agrees with numpy for [dt >= 0]; for [dt < 0] numpy gives NaN
    (and every price of the history is NaN) while Rocq's [sqrt] gives 0,
    so [stock_price] and the price matrix are modelled for [dt >= 0]
    only: the theorems about the values of a history ([stock_price_positive],
    [stock_price_zero_vol]) assume [0 <= dt], and the scripts' own
    steps (0.004, and [T / N] with [T = 0.75]) satisfy it.  NaN is [None] of [option R]; a Python
    exception is [Err e] of [result]; a numpy array is a list (a matrix a
    list of rows) and [a[i] = x] is stdpp's list [insert], always in range
    in these loops.  The Mersenne twister and numpy's Gaussian generator
    are not modelled: a random state is an arbitrary stream [nat -> R] of
    draws with a cursor, and [seed k] selects the stream [fam k] of a
    seeding family [fam] given as a parameter, so every theorem holds for
    every stream.  Plotting and printing are events of a report; colours,
    bins and figure layout are not modelled, the texts are.  [str] of a
    price is modelled as the shortest decimal of [k / 10000] in fixed
    notation, which is what CPython prints for a float [k / 10000] with
    [|k| < 10^15] (at most 15 significant digits, below [10^16]); larger
    prices would print in exponent form.  [{x:.2f}] rounds the exact
    real half to even.  No definition needs fuel: every loop of the
    scripts is a [for] over a range or a list, modelled as a structural
    fold, and the parsers recurse on the text.  The constants 250,
    10000, 0.004, 0.05, 0.02, 0.4 and 0.75 are the literals of the
    source; theorems are stated for arbitrary parameters where the code
    has parameters.  The round trip of the four fraction digits is
    checked on all 10000 fractions by [vm_compute] ([frac4_check]).

    ** Theorems (claims C1-C27)

    - The scripts end to end: AsianOptions.py ends at draw [M * N] of
      the stream seeded with 42 with one GBM path per window of draws
      (C1), prices that are numbers and non-negative (C2), printed lines
      that read back within half a cent of them (C15), globals of the
      right shape (C17), NaN prices and ["nan"] lines for [M = 0] (C26),
      and a result independent of the incoming random state (C27).
      Loading Methodology.py draws four consecutive batches (C3), and
      each [*Price] function prints a text that reads back as a
      non-negative price (C4), the same for any order of the paths (C16).
    - Refinement and equivalence: both GBM loops compute [gbm_path]
      (C5, C7, C22); the payoff loop computes [mapM] of the rule (C10)
      and raises the error of the first failing history (C25); the
      lookback rules pay the best gain over the observed prices (C11,
      C12).
    - Invariants and safety: positive histories of the right length
      (C6, C21); the batch simulator never rewinds the random state, on
      its error paths too (C18); non-negative payoffs (C13, C14).
    - Functional behaviour and bounds: the draws each simulation reads
      (C9), the truncation of [option_price] (C8), the zero-volatility
      path (C23), linearity and the edge cases of the mean that the spec
      lists (C19, C20), the ignored [period] of [simulation] (C24).
    - Findings where the code departs from the spec: the hard-coded
      10000 and the truncation (C8), the ignored [period] (C24), the
      four independent default batches (C3), the reseed that rewinds the
      cursor (C1), NaN instead of an error for empty batches (C26).
      Further lemmas that are not claims: the closed form of a history
      ([stock_price_closed_form]), the parities ([script_parity],
      [european_parity], [avg_strike_parity]), the errors of the rules on
      an empty history ([payoff_empty_errors]).

    ** Not modelled

    Floating-point rounding (a development on Flocq-style floats would be
    needed and is not installed), hence also NaN from [np.sqrt] of a
    negative step and the exponent form of [str] for prices of [10^11]
    and more; the internals of numpy's generator
    (the Mersenne twister and the polar method), a library the scripts
    only call; the rendering done by matplotlib. *)

From Stdlib Require Export Reals Lra.
From stdpp Require Export base list.

Declare Scope pricer_scope.
Delimit Scope pricer_scope with pr.

Open Scope R_scope.

(** ** Python errors and the error monad *)

Inductive PyError := ValueError | IndexError | ZeroDivisionError.

#[export] Instance PyError_eq_dec : EqDecision PyError.
Proof. solve_decision. Defined.

Inductive result (A : Type) : Type :=
| Ok (a : A)
| Err (e : PyError).
Arguments Ok {A} a.
Arguments Err {A} e.

#[export] Instance result_ret : MRet result := fun _ a => Ok a.
#[export] Instance result_bind : MBind result :=
  fun _ _ f m => match m with Ok a => f a | Err e => Err e end.
#[export] Instance result_fmap : FMap result :=
  fun _ _ f m => match m with Ok a => Ok (f a) | Err e => Err e end.

(** ** numpy reductions over real vectors *)

(** [np.sum]: the sum of a vector (0 for the empty vector). *)
Definition np_sum (l : list R) : R := fold_right Rplus 0 l.

(** [np.mean]: NaN ([None]) for the empty vector. *)
Definition np_mean (l : list R) : option R :=
  match l with
  | [] => None
  | _ => Some (np_sum l / INR (length l))
  end.

(** [np.min] and [np.max]: a ValueError for the empty vector. *)
Definition np_min (l : list R) : result R :=
  match l with
  | [] => Err ValueError
  | x :: xs => Ok (fold_left Rmin xs x)
  end.

Definition np_max (l : list R) : result R :=
  match l with
  | [] => Err ValueError
  | x :: xs => Ok (fold_left Rmax xs x)
  end.

(** [vector[-1]]: an IndexError for the empty vector. *)
Definition py_last (l : list R) : result R :=
  match last l with
  | None => Err IndexError
  | Some x => Ok x
  end.

(** Python's builtin [max(a, b)] keeps [a] unless [b > a]. *)
Definition py_max (a b : R) : R := if Rlt_dec a b then b else a.

(** Python's [int(x)] on a float truncates towards zero. *)
Definition py_int (x : R) : Z :=
  if Rle_dec 0 x then Int_part x else (- Int_part (- x))%Z.

Notation "'Σ' l" := (np_sum l) (at level 35) : pricer_scope.
Notation "v .[ i ]" := (nth i v 0) (at level 1, format "v .[ i ]") : pricer_scope.

Open Scope pricer_scope.

(** ** Recurrences filled into arrays *)

(** [recur f k n c] lists the [n] values [c_{k+1} = f k c_k], ...,
    computed from [c] by the step [f] at the indices [k], ..., [k+n-1]. *)
Fixpoint recur (f : nat -> R -> R) (k n : nat) (c : R) : list R :=
  match n with
  | O => []
  | S n' => let c' := f k c in c' :: recur f (S k) n' c'
  end.

(** The loop body [arr[a] = c = f a c], carrying [c] in a variable. *)
Definition carry_body (f : nat -> R -> R) (st : list R * R) (a : nat) : list R * R :=
  let c' := f a st.2 in (<[a := c']> st.1, c').

(** The loop body [arr[t] = f t arr[t-1]], reading the previous cell. *)
Definition prev_body (f : nat -> R -> R) (arr : list R) (t : nat) : list R :=
  <[t := f t arr.[t - 1]]> arr.

Create HintDb pricer discriminated.
#[export] Hint Resolve exp_pos sqrt_pos Rmax_r Rmax_l Rmin_l Rmin_r : pricer.

(** ** Lemmas on the loops *)

Lemma app_snoc_cons {A} (pre : list A) c l : pre ++ c :: l = (pre ++ [c]) ++ l.
Proof. by rewrite cons_middle, app_assoc. Qed.

Section Loops.
Context (f : nat -> R -> R).

(** The carrying loop [for a in range(k, k+n)] writes [recur f k n c]
    into the zero tail of the array. *)
Lemma fold_carry n : forall k pre c d,
  length pre = k ->
  (fold_left (carry_body f) (seq k n) (pre ++ replicate n d, c)).1
  = pre ++ recur f k n c.
Proof.
  induction n as [|n IH]; intros k pre c d Hk; simpl.
  - by rewrite !app_nil_r.
  - unfold carry_body at 2; simpl.
    rewrite insert_app_r_alt by lia.
    replace (k - length pre)%nat with 0%nat by lia. simpl.
    rewrite app_snoc_cons.
    rewrite (IH (S k) (pre ++ [f k c]) (f k c) d); last (rewrite length_app; simpl; lia).
    by rewrite <- app_assoc.
Qed.

(** The loop [for t in range(k+1, k+1+n): arr[t] = f t arr[t-1]] writes
    [recur f (S k) n c] after the cell [c] at index [k]. *)
Lemma fold_prev n : forall k pre c d,
  length pre = k ->
  fold_left (prev_body f) (seq (S k) n) (pre ++ c :: replicate n d)
  = pre ++ c :: recur f (S k) n c.
Proof.
  induction n as [|n IH]; intros k pre c d Hk; simpl; [done|].
  unfold prev_body at 2. simpl (S k - 1)%nat. rewrite Nat.sub_0_r.
  rewrite <- Hk, nth_middle.
  rewrite app_snoc_cons, insert_app_r_alt by (rewrite length_app; simpl; lia).
  replace (S (length pre) - length (pre ++ [c]))%nat with 0%nat
    by (rewrite length_app; simpl; lia).
  simpl.
  rewrite (IH (S (length pre)) (pre ++ [c])); [|rewrite length_app; simpl; lia].
  by rewrite <- app_assoc.
Qed.

Lemma length_recur k n c : length (recur f k n c) = n.
Proof. revert k c; induction n; intros; simpl; auto. Qed.

End Loops.

(** ** Lemmas on the numpy reductions *)

Lemma np_sum_cons x l : Σ (x :: l) = x + Σ l.
Proof. reflexivity. Qed.

Lemma np_sum_single x : Σ [x] = x.
Proof. unfold np_sum; simpl; lra. Qed.

Lemma np_sum_app l1 l2 : Σ (l1 ++ l2) = Σ l1 + Σ l2.
Proof. induction l1; simpl; [lra|]. unfold np_sum in *. simpl in *. lra. Qed.

Lemma np_sum_nonneg l : Forall (fun x => 0 <= x) l -> 0 <= Σ l.
Proof. induction 1; unfold np_sum in *; simpl; lra. Qed.

Lemma np_sum_scale k l : Σ (map (Rmult k) l) = k * Σ l.
Proof. induction l; unfold np_sum in *; simpl in *; [lra|]. rewrite IHl. lra. Qed.

Lemma np_sum_map_sub {A} (g h : A -> R) l :
  Σ (map (fun x => g x - h x) l) = Σ (map g l) - Σ (map h l).
Proof. induction l; unfold np_sum in *; simpl in *; lra. Qed.

Lemma np_sum_replicate_0 n : Σ (replicate n 0) = 0.
Proof. induction n; unfold np_sum in *; simpl in *; lra. Qed.

Lemma np_sum_le_length_max l b :
  Forall (fun x => x <= b) l -> Σ l <= INR (length l) * b.
Proof.
  induction 1; [unfold np_sum; simpl; lra|].
  rewrite np_sum_cons. cbn [length]. rewrite S_INR. lra.
Qed.

Lemma INR_length_pos {A} (l : list A) : l <> [] -> 0 < INR (length l).
Proof.
  destruct l; [done|]. intros _. cbn [length]. rewrite S_INR.
  pose proof (pos_INR (length l)). lra.
Qed.

Lemma np_mean_Some l m : np_mean l = Some m -> l <> [] /\ m = Σ l / INR (length l).
Proof. destruct l; simpl; [done|]. intros [= <-]. done. Qed.

Lemma np_mean_nonneg l m : Forall (fun x => 0 <= x) l -> np_mean l = Some m -> 0 <= m.
Proof.
  intros Hl Hm. apply np_mean_Some in Hm as [Hne ->].
  apply Rle_mult_inv_pos; [by apply np_sum_nonneg | by apply INR_length_pos].
Qed.

Lemma fold_left_Rmin_le xs : forall x y, In y (x :: xs) -> fold_left Rmin xs x <= y.
Proof.
  induction xs as [|z xs IH]; intros x y Hy; simpl in *.
  - destruct Hy as [->|[]]. lra.
  - destruct Hy as [->|[->|Hy]].
    + eapply Rle_trans; [apply IH; left; done | apply Rmin_l].
    + eapply Rle_trans; [apply IH; left; done | apply Rmin_r].
    + apply IH; right; done.
Qed.

Lemma fold_left_Rmax_ge xs : forall x y, In y (x :: xs) -> y <= fold_left Rmax xs x.
Proof.
  induction xs as [|z xs IH]; intros x y Hy; simpl in *.
  - destruct Hy as [->|[]]. lra.
  - destruct Hy as [->|[->|Hy]].
    + eapply Rle_trans; [apply Rmax_l | apply IH; left; done].
    + eapply Rle_trans; [apply Rmax_r | apply IH; left; done].
    + apply IH; right; done.
Qed.

Lemma py_last_In l x : py_last l = Ok x -> In x l.
Proof.
  unfold py_last. destruct (last l) eqn:E; [|done]. intros [= <-].
  apply last_Some in E as [l' ->]. apply in_or_app. right; left; done.
Qed.

Lemma py_last_nil : py_last [] = Err IndexError.
Proof. reflexivity. Qed.

Lemma py_last_snoc l x : py_last (l ++ [x]) = Ok x.
Proof. unfold py_last. by rewrite last_snoc. Qed.

Lemma np_min_le_last l m x : np_min l = Ok m -> py_last l = Ok x -> m <= x.
Proof.
  destruct l as [|y l]; [done|]. simpl. intros [= <-] Hx.
  apply fold_left_Rmin_le, py_last_In, Hx.
Qed.

Lemma np_max_ge_last l m x : np_max l = Ok m -> py_last l = Ok x -> x <= m.
Proof.
  destruct l as [|y l]; [done|]. simpl. intros [= <-] Hx.
  apply fold_left_Rmax_ge, py_last_In, Hx.
Qed.

Lemma py_max_Rmax a b : py_max a b = Rmax a b.
Proof.
  unfold py_max, Rmax. destruct (Rlt_dec a b), (Rle_dec a b); lra.
Qed.

Lemma Rmax_parity d : Rmax d 0 - Rmax (- d) 0 = d.
Proof.
  destruct (Rle_dec d 0).
  - rewrite (Rmax_right d 0), (Rmax_left (- d) 0); lra.
  - rewrite (Rmax_left d 0), (Rmax_right (- d) 0); lra.
Qed.

(** [int(x)] for [x >= 0] is the integer part of [x]. *)
Lemma py_int_nonneg x :
  0 <= x -> 0 <= IZR (py_int x) <= x /\ x < IZR (py_int x) + 1.
Proof.
  intros Hx. unfold py_int. destruct (Rle_dec 0 x) as [_|]; [|lra].
  destruct (base_Int_part x) as [H1 H2].
  assert (0 <= IZR (Int_part x)).
  { apply IZR_le, Z.lt_pred_le, lt_IZR. change (IZR (Z.pred 0)) with (-1). lra. }
  lra.
Qed.

#[export] Hint Resolve np_sum_nonneg np_mean_nonneg : pricer.
Create Rewrite HintDb pricer_rw.
#[export] Hint Rewrite np_sum_app np_sum_scale np_sum_replicate_0 py_max_Rmax : pricer_rw.

Lemma np_sum_replicate n c : Σ (replicate n c) = INR n * c.
Proof.
  induction n; [unfold np_sum; simpl; lra|].
  cbn [replicate]. rewrite np_sum_cons, S_INR, IHn. lra.
Qed.

(** A loop that updates every row of a matrix in step with a second
    matrix acts row by row. *)
Lemma fold_zip_with {A B} (F : nat -> A -> B -> A) (ts : list nat) :
  forall (S : list A) (z : list B),
  length S = length z ->
  fold_left (fun S t => zip_with (F t) S z) ts S
  = zip_with (fun row zr => fold_left (fun row t => F t row zr) ts row) S z.
Proof.
  induction ts as [|t ts IH]; intros S z Hl; simpl.
  - revert z Hl; induction S as [|x S IHS]; intros [|y z] Hl; simpl in *; try done.
    f_equal. apply IHS. lia.
  - rewrite IH by (rewrite length_zip_with; lia).
    clear IH. revert z Hl; induction S as [|x S IHS]; intros [|y z] Hl; simpl in *; try done.
    f_equal. apply IHS. lia.
Qed.

Lemma fold_left_ext_pw {A B} (f g : A -> B -> A) l :
  (forall a b, f a b = g a b) -> forall x, fold_left f l x = fold_left g l x.
Proof. intros Hfg. induction l; intros x; simpl; [done|]. by rewrite Hfg. Qed.

Lemma zip_with_replicate_map {A B C} (f : A -> B -> C) n x (k : list B) :
  length k = n -> zip_with f (replicate n x) k = map (f x) k.
Proof. intros <-. induction k; simpl; f_equal; auto. Qed.

Lemma map_replicate {A B} (f : A -> B) n x : map f (replicate n x) = replicate n (f x).
Proof. induction n; simpl; f_equal; auto. Qed.

Lemma nth_map_seq {A} (f : nat -> A) n k d :
  (k < n)%nat -> nth k (map f (seq 0 n)) d = f k.
Proof.
  intros Hk. rewrite (nth_indep _ _ (f 0%nat)) by (rewrite length_map, length_seq; lia).
  rewrite map_nth, seq_nth by lia. done.
Qed.

Lemma np_sum_affine a b l : Σ (map (fun e => a + b * e) l) = INR (length l) * a + b * Σ l.
Proof.
  induction l as [|e l IH]; [unfold np_sum; simpl; lra|].
  cbn [map length]. rewrite !np_sum_cons, IH, S_INR. ring.
Qed.

(** ** Tactics for the error monad *)

(** Unfold the binds of [result] in [H] and split on every intermediate
    result, dropping the branches that raise. *)
Ltac result_inv H :=
  unfold mbind, mret, result_bind, result_ret in H;
  repeat match type of H with
  | context [match ?m with Ok _ => _ | Err _ => _ end] =>
      let E := fresh "E" in destruct m eqn:E; try discriminate H
  end;
  try (injection H as H).

Lemma bind_Ok {A B} (m : result A) (f : A -> result B) a :
  m = Ok a -> (m ≫= f) = f a.
Proof. by intros ->. Qed.

Lemma bind_Err {A B} (m : result A) (f : A -> result B) e :
  m = Err e -> (m ≫= f) = Err e.
Proof. by intros ->. Qed.

Lemma fold_left_Rmin_In xs : forall x, In (fold_left Rmin xs x) (x :: xs).
Proof.
  induction xs as [|z xs IH]; intros x; simpl; [auto|].
  destruct (IH (Rmin x z)) as [Hm|Hm]; [|auto].
  rewrite <- Hm. unfold Rmin. destruct (Rle_dec x z); auto.
Qed.

Lemma fold_left_Rmax_In xs : forall x, In (fold_left Rmax xs x) (x :: xs).
Proof.
  induction xs as [|z xs IH]; intros x; simpl; [auto|].
  destruct (IH (Rmax x z)) as [Hm|Hm]; [|auto].
  rewrite <- Hm. unfold Rmax. destruct (Rle_dec x z); auto.
Qed.

Lemma np_min_spec l m :
  np_min l = Ok m <-> In m l /\ forall y, In y l -> m <= y.
Proof.
  destruct l as [|x xs]; simpl.
  - split; [done|]. intros [[] _].
  - split.
    + intros [= <-]. split; [apply fold_left_Rmin_In|]. intros y Hy. by apply fold_left_Rmin_le.
    + intros [Hin Hle]. f_equal. apply Rle_antisym.
      * apply fold_left_Rmin_le; auto.
      * apply Hle, fold_left_Rmin_In.
Qed.

Lemma np_max_spec l m :
  np_max l = Ok m <-> In m l /\ forall y, In y l -> y <= m.
Proof.
  destruct l as [|x xs]; simpl.
  - split; [done|]. intros [[] _].
  - split.
    + intros [= <-]. split; [apply fold_left_Rmax_In|]. intros y Hy. by apply fold_left_Rmax_ge.
    + intros [Hin Hle]. f_equal. apply Rle_antisym.
      * apply Hle, fold_left_Rmax_In.
      * apply fold_left_Rmax_ge; auto.
Qed.

Lemma py_last_Ok_nonempty l x : py_last l = Ok x -> l <> [].
Proof. by destruct l. Qed.

Lemma py_last_nonempty l : l <> [] -> exists x, py_last l = Ok x.
Proof.
  intros Hl. unfold py_last. destruct (last l) eqn:E; [eauto|].
  by apply last_None in E.
Qed.

Lemma py_int_small x : 0 <= x < 1 -> py_int x = 0%Z.
Proof.
  intros Hx. destruct (py_int_nonneg x) as [[H0 H1] H2]; [lra|].
  assert (Ha : (py_int x < 1)%Z) by (apply lt_IZR; lra).
  assert (Hb : (0 <= py_int x)%Z) by (apply le_IZR; lra).
  lia.
Qed.

Lemma py_int_ge_1 x : 1 <= x -> (1 <= py_int x)%Z.
Proof.
  intros Hx. destruct (py_int_nonneg x) as [[H0 H1] H2]; [lra|].
  assert (Ha : (0 < py_int x)%Z) by (apply lt_IZR; lra). lia.
Qed.

Lemma length_removelast {A} (l : list A) : length (removelast l) = pred (length l).
Proof. rewrite removelast_firstn_len, length_firstn. lia. Qed.

Lemma np_mean_nonempty l : l <> [] -> np_mean l = Some (Σ l / INR (length l)).
Proof. by destruct l. Qed.

(** ** Order independence of the reductions

    numpy's sum and mean do not depend on the order of the vector: they
    respect permutations ([≡ₚ]), so [rewrite] with a permutation works
    under them. *)

#[export] Instance np_sum_perm : Proper ((≡ₚ) ==> (=)) np_sum.
Proof.
  intros l l' H. induction H as [| x l l' _ IH | x y l | l l' l'' _ IH1 _ IH2];
    unfold np_sum in *; cbn [fold_right] in *; [done | by rewrite IH | ring | congruence].
Qed.

#[export] Instance np_mean_perm : Proper ((≡ₚ) ==> (=)) np_mean.
Proof.
  intros l l' H. destruct l as [|x l], l' as [|x' l'].
  - done.
  - by apply Permutation_nil_cons in H.
  - symmetry in H. by apply Permutation_nil_cons in H.
  - unfold np_mean. by rewrite H.
Qed.
