(* ===== verification/Rng.v ===== *)
(** * Rng: numpy's global random state

    Both scripts draw from numpy's global legacy [RandomState]:
    Methodology.py with [np.random.randn(period)] (line 9),
    AsianOptions.py with [np.random.seed(42)] and
    [np.random.normal(0, 1, (M, N))] (lines 19-20).  Both functions draw
    from the same sequence of standard normals ([legacy_gauss]); [normal]
    returns [loc + scale * g] for each draw [g] and fills the array in C
    (row-major) order.

    A random state is modelled as the stream of draws it will produce and
    a cursor into it; drawing [n] values reads the window
    [cursor, cursor + n) and advances the cursor by [n].  Seeding replaces
    the stream by [fam k] for a seeding family [fam] (the Mersenne twister
    and the polar method are not modelled) and resets the cursor.

    [PyM] is the state-and-error monad of the scripts: it threads the
    random state and returns a [result].  [draw_step] is the transition of
    a draw; [only_draws m] says that every run of [m], the raising ones
    included, ends at a state reached by draws only: same stream, cursor
    not moved back ([draw_reach_iff]). *)

From S2P Require Import Prelude.
From stdpp Require Export relations.

Open Scope R_scope.
Open Scope pricer_scope.

Record RandomState := mkRandomState {
  rs_stream : nat -> R;
  rs_pos : nat
}.

Definition PyM (A : Type) : Type := RandomState -> result A * RandomState.

#[export] Instance PyM_ret : MRet PyM := fun _ a s => (Ok a, s).
#[export] Instance PyM_bind : MBind PyM :=
  fun _ _ f m s =>
    match m s with
    | (Ok a, s') => f a s'
    | (Err e, s') => (Err e, s')
    end.

(** [raise e]: a Python exception, leaving the random state as it is. *)
Definition raise {A} (e : PyError) : PyM A := fun s => (Err e, s).

(** Lift a pure [result] into [PyM]. *)
Definition lift {A} (r : result A) : PyM A := fun s => (r, s).

Definition advance (n : nat) (s : RandomState) : RandomState :=
  mkRandomState (rs_stream s) (rs_pos s + n).

(** The [n] draws of the stream [g] from index [start]. *)
Definition draws (g : nat -> R) (start n : nat) : list R := map g (seq start n).

(** [np.random.randn(n)]. *)
Definition randn (n : nat) : PyM (list R) :=
  fun s => (Ok (draws (rs_stream s) (rs_pos s) n), advance n s).

(** Cutting a flat C-order buffer into [m] rows of [n] entries. *)
Fixpoint reshape (m n : nat) (l : list R) : list (list R) :=
  match m with
  | O => []
  | S m' => take n l :: reshape m' n (drop n l)
  end.

(** [np.random.normal(loc, scale, (m, n))]. *)
Definition normal (loc scale : R) (m n : nat) : PyM (list (list R)) :=
  fun s =>
    (Ok (reshape m n (map (fun g => loc + scale * g)
                          (draws (rs_stream s) (rs_pos s) (m * n)))),
     advance (m * n) s).

(** [np.random.seed(k)] with the seeding family [fam]. *)
Definition seed (fam : Z -> nat -> R) (k : Z) : PyM unit :=
  fun _ => (Ok tt, mkRandomState (fam k) 0).

(** A Python [for] loop over [l] whose body may draw and raise. *)
Fixpoint foldlM_py {A B} (f : A -> B -> PyM A) (l : list B) (a : A) : PyM A :=
  match l with
  | [] => mret a
  | x :: l' => a' ← f a x; foldlM_py f l' a'
  end.

(** A random state whose draws are all 0, for concrete runs. *)
Definition zero_state : RandomState := mkRandomState (fun _ => 0) 0.

(** ** Draws-only runs *)

(** A draw only: the stream is kept and the cursor moves forward. *)
Definition draw_step (s s' : RandomState) : Prop := exists n, s' = advance n s.

(** A computation whose end state is reached from its start state by
    draws only, on every path, the error paths included. *)
Definition only_draws {A} (m : PyM A) : Prop := forall s, rtc draw_step s (m s).2.

Create HintDb rng discriminated.

Ltac pym_unfold :=
  unfold mbind, mret, PyM_bind, PyM_ret, raise, lift in *.

(** ** Lemmas on draws and reshaping *)

Lemma length_draws g start n : length (draws g start n) = n.
Proof. unfold draws. by rewrite length_map, length_seq. Qed.

Lemma draws_add g start a b :
  draws g start (a + b) = draws g start a ++ draws g (start + a) b.
Proof. unfold draws. by rewrite seq_app, map_app. Qed.

Lemma draws_S g start n : draws g start (S n) = g start :: draws g (S start) n.
Proof. reflexivity. Qed.

Lemma length_reshape m n l : length (reshape m n l) = m.
Proof. revert l; induction m; intros; simpl; auto. Qed.

Lemma reshape_map (h : R -> R) m n l :
  reshape m n (map h l) = map (map h) (reshape m n l).
Proof.
  revert l; induction m as [|m IH]; intros l; simpl; [done|].
  by rewrite <- IH, firstn_map, skipn_map.
Qed.

(** Reshaping a contiguous window of draws gives the windows of the rows. *)
Lemma reshape_draws g m n : forall start,
  reshape m n (draws g start (m * n))
  = map (fun i => draws g (start + i * n) n) (seq 0 m).
Proof.
  induction m as [|m IH]; intros start; simpl; [done|].
  rewrite draws_add, take_app_length' by (by rewrite length_draws).
  rewrite drop_app_length' by (by rewrite length_draws).
  rewrite IH, Nat.add_0_r. f_equal.
  rewrite <- seq_shift, map_map. apply map_ext. intros i.
  f_equal. lia.
Qed.

(** The windows of two draws that follow each other do not overlap: the
    cursor only moves forward. *)
Lemma advance_add a b s : advance b (advance a s) = advance (a + b) s.
Proof. unfold advance; simpl. f_equal. lia. Qed.

#[export] Hint Rewrite length_draws length_reshape advance_add : pricer_rw.

Lemma pym_bind_Ok {A B} (m : PyM A) (f : A -> PyM B) s a s' :
  m s = (Ok a, s') -> (m ≫= f) s = f a s'.
Proof. intros H. pym_unfold. by rewrite H. Qed.

Lemma foldlM_py_cons {A B} (f : A -> B -> PyM A) x l a s :
  foldlM_py f (x :: l) a s
  = match f a x s with
    | (Ok a', s') => foldlM_py f l a' s'
    | (Err e, s') => (Err e, s')
    end.
Proof. reflexivity. Qed.

(** The windows of [w] draws at [pos], [pos + w], [pos + 2w], ... *)
Lemma map_windows {A} (F : nat -> A) pos w n :
  map (fun j => F (pos + j * w)%nat) (seq 0 (S n))
  = F pos :: map (fun j => F (pos + w + j * w)%nat) (seq 0 n).
Proof.
  cbn [seq map]. rewrite Nat.add_0_r. f_equal.
  rewrite <- seq_shift, map_map. apply map_ext. intros j. f_equal. lia.
Qed.

Lemma take_draws g start n k : (k <= n)%nat -> take k (draws g start n) = draws g start k.
Proof. intros Hk. unfold draws. by rewrite firstn_map, take_seq, Nat.min_l. Qed.

Lemma normal_run loc scale m n s :
  normal loc scale m n s
  = (Ok (map (fun i => map (fun g => loc + scale * g)
                          (draws (rs_stream s) (rs_pos s + i * n) n)) (seq 0 m)),
     advance (m * n) s).
Proof.
  unfold normal. rewrite reshape_map, reshape_draws, map_map. reflexivity.
Qed.

(** [np.random.normal(0, 1, (m, n))] fills the matrix in C order from
    the draws at the cursor: row [i] is the window of [n] draws that
    starts [i * n] draws after the cursor, and the cursor advances by
    [m * n]. *)
Theorem normal_std_rows m n s :
  normal 0 1 m n s
  = (Ok (map (fun i => draws (rs_stream s) (rs_pos s + i * n) n) (seq 0 m)),
     advance (m * n) s).
Proof.
  rewrite normal_run. do 2 f_equal. apply map_ext. intros i.
  rewrite <- (map_id (draws _ _ _)) at 2. apply map_ext. intros g. ring.
Qed.

(** ** Reachability of random states *)

Lemma draw_reach_iff s s' :
  rtc draw_step s s' <-> rs_stream s' = rs_stream s /\ (rs_pos s <= rs_pos s')%nat.
Proof.
  split.
  - induction 1 as [|x y z [n ->] _ [IH1 IH2]]; [done|]. cbn in *. split; [done | lia].
  - destruct s as [g p], s' as [g' p']; cbn. intros [-> Hp]. apply rtc_once.
    exists (p' - p)%nat. unfold advance; cbn. f_equal. lia.
Qed.

Lemma draw_reach_advance n s : rtc draw_step s (advance n s).
Proof. apply rtc_once. by exists n. Qed.

Lemma only_draws_ret {A} (a : A) : only_draws (mret a).
Proof. intros s. apply rtc_refl. Qed.

Lemma only_draws_raise {A} e : only_draws (raise (A:=A) e).
Proof. intros s. apply rtc_refl. Qed.

Lemma only_draws_lift {A} (r : result A) : only_draws (lift r).
Proof. intros s. apply rtc_refl. Qed.

Lemma only_draws_bind {A B} (m : PyM A) (f : A -> PyM B) :
  only_draws m -> (forall a, only_draws (f a)) -> only_draws (m ≫= f).
Proof.
  intros Hm Hf s. pose proof (Hm s) as H. pym_unfold.
  destruct (m s) as [[a|e] s']; cbn in *; [|done].
  eapply rtc_trans; [exact H | apply Hf].
Qed.

Lemma only_draws_randn n : only_draws (randn n).
Proof. intros s. apply draw_reach_advance. Qed.

Lemma only_draws_normal loc scale m n : only_draws (normal loc scale m n).
Proof. intros s. apply draw_reach_advance. Qed.

Lemma only_draws_foldlM {A B} (f : A -> B -> PyM A) l a :
  (forall a x, only_draws (f a x)) -> only_draws (foldlM_py f l a).
Proof.
  intros Hf. revert a. induction l as [|x l IH]; intros a; cbn [foldlM_py].
  - apply only_draws_ret.
  - apply only_draws_bind; auto.
Qed.

#[export] Hint Resolve only_draws_ret only_draws_raise only_draws_lift only_draws_bind
  only_draws_randn only_draws_normal only_draws_foldlM : rng.

