(* ===== verification/PathGen.v ===== *)
(** * PathGen: one price history by the GBM recurrence

    [src/Methodology.py] lines 4-19, [stock_price]: an array of [period]
    zeros, [period] draws of [np.random.randn], and a loop that multiplies
    the running price [price_new] by the step factor and stores it at
    index [a].  The history does not contain the initial price [s_0].

    [src/AsianOptions.py] lines 21-26: a matrix [S] of [M] rows and [N+1]
    columns, column 0 set to [S0], and a loop over [t = 1 .. N] that
    computes column [t] from column [t-1] and column [t-1] of the draws.

    Both loops are translated as they are written (index writes into an
    array) and proved equal to the reference scan [gbm_path]. *)

From S2P Require Import Prelude Rng.

(** The step factor [exp((mu - 0.5 * vol**2) * dt + vol * sqrt(dt) * e)];
    Methodology.py writes [r - q] for [mu]. *)
Definition log_step (mu vol dt e : R) : R :=
  (mu - 0.5 * vol ^ 2) * dt + vol * sqrt dt * e.

Definition growth (mu vol dt e : R) : R := exp (log_step mu vol dt e).

(** The reference: the prices after each draw, starting from [s]. *)
Fixpoint gbm_path (g : R -> R) (s : R) (eps : list R) : list R :=
  match eps with
  | [] => []
  | e :: es => let s' := s * g e in s' :: gbm_path g s' es
  end.

(** ** Methodology.py: [stock_price] *)

Record StockParams := mkStockParams {
  s_0 : R; dt : R; r : R; q : R; vol : R; period : nat
}.

(** The default arguments of [stock_price]. *)
Definition stock_price_defaults : StockParams :=
  mkStockParams 100 0.004 0.05 0.02 0.4 250.

(** [price_new = price_new * np.exp(...epsilon[a])]. *)
Definition stock_step (p : StockParams) (epsilon : list R) (a : nat) (price_new : R) : R :=
  price_new * exp ((r p - q p - 0.5 * vol p ^ 2) * dt p + vol p * sqrt (dt p) * epsilon.[a]).

(** The loop [for a in range(period): ...; prices[a] = price_new]. *)
Definition stock_price_loop (p : StockParams) (epsilon : list R) : list R :=
  (fold_left (carry_body (stock_step p epsilon)) (seq 0 (period p))
             (replicate (period p) 0, s_0 p)).1.

Definition stock_price (p : StockParams) : PyM (list R) :=
  epsilon ← randn (period p);
  mret (stock_price_loop p epsilon).

(** ** AsianOptions.py: the price matrix *)

Definition col (S : list (list R)) (t : nat) : list R := map (fun row => row.[t]) S.

(** [S[:, t] = c]. *)
Definition set_col (S : list (list R)) (t : nat) (c : list R) : list (list R) :=
  zip_with (fun row x => <[t := x]> row) S c.

(** [S[:, t] = S[:, t-1] * np.exp((mu - 0.5*sigma**2)*dt + sigma*np.sqrt(dt)*z[:, t-1])]. *)
Definition asian_step (mu sigma dt : R) (z : list (list R)) (S : list (list R)) (t : nat) :=
  set_col S t (zip_with (fun s zz => s * exp ((mu - 0.5 * sigma ^ 2) * dt + sigma * sqrt dt * zz))
                        (col S (t - 1)) (col z (t - 1))).

(** [S = np.zeros((M, N + 1)); S[:, 0] = S0]. *)
Definition asian_init (S0 : R) (M N : nat) : list (list R) :=
  map (fun row => <[0%nat := S0]> row) (replicate M (replicate (N + 1) 0)).

(** [for t in range(1, N + 1): ...]. *)
Definition asian_fill (mu sigma dt S0 : R) (M N : nat) (z : list (list R)) : list (list R) :=
  fold_left (asian_step mu sigma dt z) (seq 1 N) (asian_init S0 M N).

(** ** The loops compute the reference scan *)

Lemma length_gbm_path g s eps : length (gbm_path g s eps) = length eps.
Proof. revert s; induction eps; intros; simpl; auto. Qed.

(** A recurrence whose step at [k + i] multiplies by [g eps.[i]] is the
    scan of [g] over [eps]. *)
Lemma recur_gbm g eps : forall f k c,
  (forall i x, (i < length eps)%nat -> f (k + i)%nat x = x * g eps.[i]) ->
  recur f k (length eps) c = gbm_path g c eps.
Proof.
  induction eps as [|e es IH]; intros f k c Hf; simpl; [done|].
  assert (Hk : f k c = c * g e).
  { rewrite <- (Nat.add_0_r k) at 1. apply (Hf 0%nat). simpl; lia. }
  rewrite Hk. f_equal. apply IH. intros i x Hi.
  replace (S k + i)%nat with (k + S i)%nat by lia. apply (Hf (S i)). simpl; lia.
Qed.

Lemma stock_price_loop_gbm p epsilon :
  length epsilon = period p ->
  stock_price_loop p epsilon
  = gbm_path (growth (r p - q p) (vol p) (dt p)) (s_0 p) epsilon.
Proof.
  intros Hl. unfold stock_price_loop.
  change (replicate (period p) 0, s_0 p) with ([] ++ replicate (period p) 0, s_0 p).
  rewrite fold_carry by done. simpl. rewrite <- Hl.
  apply recur_gbm. intros i x _. reflexivity.
Qed.

Lemma stock_price_run p s :
  stock_price p s
  = (Ok (stock_price_loop p (draws (rs_stream s) (rs_pos s) (period p))),
     advance (period p) s).
Proof. reflexivity. Qed.

Lemma stock_price_only_draws p : only_draws (stock_price p).
Proof. unfold stock_price. auto with rng. Qed.

#[export] Hint Resolve stock_price_only_draws : rng.

Lemma length_stock_price_loop p epsilon :
  length epsilon = period p -> length (stock_price_loop p epsilon) = period p.
Proof. intros Hl. by rewrite stock_price_loop_gbm, length_gbm_path. Qed.

Lemma gbm_path_pos g s eps :
  0 < s -> (forall e, 0 < g e) -> Forall (fun x => 0 < x) (gbm_path g s eps).
Proof.
  revert s; induction eps as [|e es IH]; intros s Hs Hg; simpl; constructor.
  - specialize (Hg e). nra.
  - apply IH; [specialize (Hg e); nra | done].
Qed.

Lemma growth_pos mu vol dt e : 0 < growth mu vol dt e.
Proof. apply exp_pos. Qed.

#[export] Hint Resolve growth_pos gbm_path_pos : pricer.
#[export] Hint Rewrite length_gbm_path : pricer_rw.

(** [S[:, t] = f(S[:, t-1], z[:, t-1])] acts row by row. *)
Lemma asian_step_rows mu sigma dt z S t :
  asian_step mu sigma dt z S t
  = zip_with (fun row zr => prev_body (fun t x => x * growth mu sigma dt zr.[t - 1]) row t) S z.
Proof.
  unfold asian_step, set_col, col, prev_body, growth, log_step.
  revert z; induction S as [|row S IH]; intros [|zr z]; simpl; try done.
  by rewrite IH.
Qed.

Lemma asian_row_fill g S0 N zr :
  length zr = N ->
  fold_left (fun row t => prev_body (fun t x => x * g zr.[t - 1]) row t)
            (seq 1 N) (<[0%nat := S0]> (replicate (N + 1) 0))
  = S0 :: gbm_path g S0 zr.
Proof.
  intros Hl. rewrite Nat.add_1_r. simpl.
  change (S0 :: replicate N 0) with ([] ++ S0 :: replicate N 0).
  rewrite (fold_prev _ N 0 [] S0 0) by done. simpl. f_equal.
  rewrite <- Hl. apply recur_gbm. intros i x _.
  by replace (1 + i - 1)%nat with i by lia.
Qed.

Lemma asian_fill_gbm mu sigma dt S0 M N z :
  length z = M -> Forall (fun zr => length zr = N) z ->
  asian_fill mu sigma dt S0 M N z
  = map (fun zr => S0 :: gbm_path (growth mu sigma dt) S0 zr) z.
Proof.
  intros HM HN. unfold asian_fill.
  rewrite (fold_left_ext_pw _ (fun S t => zip_with (fun row zr =>
             prev_body (fun t x => x * growth mu sigma dt zr.[t - 1]) row t) S z))
    by (intros; apply asian_step_rows).
  rewrite fold_zip_with
    by (unfold asian_init; rewrite length_map, length_replicate; done).
  unfold asian_init. rewrite map_replicate, zip_with_replicate_map by done.
  apply map_ext_Forall. eapply Forall_impl; [exact HN|].
  intros zr Hzr. by apply asian_row_fill.
Qed.

(** ** Properties of the price histories *)

(** C5 The history of [stock_price] is the GBM scan of the [period] draws
    at the cursor of the random state, and the cursor advances by
    [period]: the loop of Methodology.py lines 13-17 refines the
    recurrence [S_{a+1} = S_a * exp((r - q - vol^2/2) dt + vol sqrt(dt) e_a)]. *)
Theorem stock_price_computes_gbm p s :
  stock_price p s
  = (Ok (gbm_path (growth (r p - q p) (vol p) (dt p)) (s_0 p)
                  (draws (rs_stream s) (rs_pos s) (period p))),
     advance (period p) s).
Proof.
  unfold stock_price. pym_unfold. simpl.
  by rewrite stock_price_loop_gbm by apply length_draws.
Qed.

(** C6 For a positive initial price and a step [dt >= 0] (where
    [np.sqrt(dt)] is a number, not NaN), [stock_price] returns (it
    raises nothing) a history of exactly [period] prices, all strictly
    positive. *)
Theorem stock_price_positive p s :
  0 < s_0 p -> 0 <= dt p ->
  exists path, (stock_price p s).1 = Ok path
    /\ length path = period p /\ Forall (fun x => 0 < x) path.
Proof.
  intros Hs _. unfold stock_price. pym_unfold. simpl.
  eexists; split; [reflexivity|].
  rewrite stock_price_loop_gbm by apply length_draws.
  autorewrite with pricer_rw. auto with pricer.
Qed.

(** C7 The column-by-column loop of AsianOptions.py (lines 21-26) fills
    row [i] of [S] with [S0] followed by the GBM scan of row [i] of the
    draws: the vectorised loop computes each path independently. *)
Theorem asian_fill_rows mu sigma dt S0 M N z :
  length z = M -> Forall (fun zr => length zr = N) z ->
  forall i zr, z !! i = Some zr ->
  asian_fill mu sigma dt S0 M N z !! i = Some (S0 :: gbm_path (growth mu sigma dt) S0 zr).
Proof.
  intros HM HN i zr Hi. rewrite asian_fill_gbm by done.
  by rewrite list_lookup_fmap, Hi.
Qed.

(** C22 With the same draws and the same step, a row of the AsianOptions.py
    matrix is [S0] followed by the history that [stock_price] of
    Methodology.py computes: the two scripts simulate the same process,
    except that Methodology.py drops the initial price. *)
Theorem asian_fill_extends_stock_price r0 q0 vol0 dt0 S0 M N z :
  length z = M -> Forall (fun zr => length zr = N) z ->
  asian_fill (r0 - q0) vol0 dt0 S0 M N z
  = map (fun zr => S0 :: stock_price_loop (mkStockParams S0 dt0 r0 q0 vol0 N) zr) z.
Proof.
  intros HM HN. rewrite asian_fill_gbm by done.
  apply map_ext_Forall. eapply Forall_impl; [exact HN|].
  intros zr Hzr. f_equal. by rewrite stock_price_loop_gbm.
Qed.

Lemma gbm_path_exp h s eps :
  gbm_path (fun e => exp (h e)) s eps
  = map (fun k => s * exp (Σ (take (S k) (map h eps)))) (seq 0 (length eps)).
Proof.
  revert s; induction eps as [|e es IH]; intros s; [done|].
  cbn [gbm_path length]. rewrite IH.
  cbn [seq map]. f_equal.
  - cbn. unfold np_sum; simpl. by rewrite Rplus_0_r.
  - rewrite <- seq_shift, map_map. apply map_ext. intros k.
    cbn [take map]. rewrite np_sum_cons, exp_plus. ring.
Qed.

(** The price after [S k] steps, in closed form. *)
Lemma stock_price_loop_nth p eps k :
  length eps = period p -> (k < period p)%nat ->
  (stock_price_loop p eps).[k]
  = s_0 p * exp ((r p - q p - 0.5 * vol p ^ 2) * (INR (S k) * dt p)
                 + vol p * sqrt (dt p) * Σ (take (S k) eps)).
Proof.
  intros Hl Hk. rewrite stock_price_loop_gbm by done.
  unfold growth. rewrite gbm_path_exp, nth_map_seq by lia.
  rewrite firstn_map. unfold log_step.
  rewrite np_sum_affine, length_take, Nat.min_l by lia. f_equal. f_equal. ring.
Qed.

(** Closed form of a history: the price after [k+1] steps is
    [s_0 * exp((r - q - vol^2/2) (k+1) dt + vol sqrt(dt) (e_0 + ... + e_k))]
    where [e_0, ..., e_k] are the first [k+1] draws at the cursor. *)
Theorem stock_price_closed_form p s k :
  (k < period p)%nat ->
  exists path, (stock_price p s).1 = Ok path /\
    path.[k] = s_0 p * exp ((r p - q p - 0.5 * vol p ^ 2) * (INR (S k) * dt p)
                            + vol p * sqrt (dt p) * Σ (draws (rs_stream s) (rs_pos s) (S k))).
Proof.
  intros Hk. unfold stock_price. pym_unfold. simpl.
  eexists; split; [reflexivity|].
  rewrite stock_price_loop_nth by (rewrite ?length_draws; lia).
  by rewrite take_draws by lia.
Qed.

(** C23 With zero volatility and a step [dt >= 0] (so that
    [vol * np.sqrt(dt)] is [0], not NaN) the history does not depend on
    the draws: after [k+1] steps the price is
    [s_0 * exp((r - q) (k+1) dt)]. *)
Theorem stock_price_zero_vol p s :
  vol p = 0 -> 0 <= dt p ->
  (stock_price p s).1
  = Ok (map (fun k => s_0 p * exp ((r p - q p) * (INR (S k) * dt p))) (seq 0 (period p))).
Proof.
  intros Hv _. unfold stock_price. pym_unfold. cbn -[INR]. f_equal.
  rewrite stock_price_loop_gbm by apply length_draws.
  unfold growth. rewrite gbm_path_exp, length_draws.
  apply map_ext_in. intros k Hk. apply in_seq in Hk.
  rewrite firstn_map. unfold log_step.
  rewrite np_sum_affine, length_take, length_draws, Nat.min_l by lia.
  rewrite Hv. f_equal. f_equal. ring.
Qed.

(** ** Concrete instances of the theorems *)

Lemma stock_price_positive_witness :
  0 < s_0 stock_price_defaults /\ 0 <= dt stock_price_defaults /\
  exists path, (stock_price stock_price_defaults zero_state).1 = Ok path
    /\ length path = period stock_price_defaults /\ Forall (fun x => 0 < x) path.
Proof.
  split; [simpl; lra|]. split; [simpl; lra|].
  apply stock_price_positive; simpl; lra.
Defined.

Lemma asian_fill_rows_witness :
  asian_fill 0.03 0.4 0.003 100 1 2 [[0.1; -0.2]] !! 0%nat
  = Some (100 :: gbm_path (growth 0.03 0.4 0.003) 100 [0.1; -0.2]).
Proof.
  apply (asian_fill_rows 0.03 0.4 0.003 100 1 2 [[0.1; -0.2]]);
    [reflexivity | repeat constructor | reflexivity].
Defined.

Lemma asian_fill_extends_stock_price_witness :
  asian_fill (0.05 - 0.02) 0.4 0.003 100 1 2 [[0.1; -0.2]]
  = [100 :: stock_price_loop (mkStockParams 100 0.003 0.05 0.02 0.4 2) [0.1; -0.2]].
Proof.
  apply (asian_fill_extends_stock_price 0.05 0.02 0.4 0.003 100 1 2 [[0.1; -0.2]]);
    [reflexivity | repeat constructor].
Defined.

Lemma stock_price_closed_form_witness :
  (0 < period stock_price_defaults)%nat /\
  exists path, (stock_price stock_price_defaults zero_state).1 = Ok path /\
    path.[0] = 100 * exp ((0.05 - 0.02 - 0.5 * 0.4 ^ 2) * (INR 1 * 0.004)
                          + 0.4 * sqrt 0.004 * Σ (draws (fun _ => 0) 0 1)).
Proof.
  split; [simpl; lia|].
  apply (stock_price_closed_form stock_price_defaults zero_state 0). simpl; lia.
Defined.

Lemma stock_price_zero_vol_witness :
  vol (mkStockParams 100 0.004 0.05 0.02 0 3) = 0 /\
  0 <= dt (mkStockParams 100 0.004 0.05 0.02 0 3) /\
  (stock_price (mkStockParams 100 0.004 0.05 0.02 0 3) zero_state).1
  = Ok (map (fun k => 100 * exp ((0.05 - 0.02) * (INR (S k) * 0.004))) (seq 0 3)).
Proof.
  split; [reflexivity|]. split; [simpl; lra|].
  apply (stock_price_zero_vol (mkStockParams 100 0.004 0.05 0.02 0 3)); [reflexivity | simpl; lra].
Defined.
