(* ===== verification/Simulation.v ===== *)
(** * Simulation: the batch of histories of Methodology.py

    [src/Methodology.py] lines 21-26, [simulation]: a zero matrix of
    [iterations] rows and [period] columns, and a loop that assigns
    [stock_price()] (with its default arguments, so 250 prices) to row
    [i].  numpy's row assignment broadcasts a vector of length 1 and
    raises a ValueError for any other length that is not the width. *)

From S2P Require Import Prelude Rng PathGen.

(** [a[i] = row] for a numpy matrix [a] of width [w]. *)
Definition np_set_row (w : nat) (a : list (list R)) (i : nat) (row : list R)
  : result (list (list R)) :=
  if decide (i < length a)%nat then
    if decide (length row = w) then Ok (<[i := row]> a)
    else if decide (length row = 1%nat) then Ok (<[i := replicate w row.[0]]> a)
    else Err ValueError
  else Err IndexError.

(** [simulations[i] = stock_price()]. *)
Definition simulation_body (period : nat) (simulations : list (list R)) (i : nat)
  : PyM (list (list R)) :=
  row ← stock_price stock_price_defaults;
  lift (np_set_row period simulations i row).

Definition simulation (iterations period : nat) : PyM (list (list R)) :=
  foldlM_py (simulation_body period) (seq 0 iterations)
            (replicate iterations (replicate period 0)).

(** The history that [stock_price()] computes from the draws at [start]. *)
Definition default_history (g : nat -> R) (start : nat) : list R :=
  stock_price_loop stock_price_defaults (draws g start 250).

Lemma stock_price_default_run s :
  stock_price stock_price_defaults s
  = (Ok (default_history (rs_stream s) (rs_pos s)), advance 250 s).
Proof. rewrite stock_price_run. unfold default_history. reflexivity. Qed.

Lemma simulation_body_run w a i s :
  simulation_body w a i s
  = (np_set_row w a i (default_history (rs_stream s) (rs_pos s)), advance 250 s).
Proof. unfold simulation_body. pym_unfold. by rewrite stock_price_default_run. Qed.

Lemma length_default_history g start : length (default_history g start) = 250%nat.
Proof. apply length_stock_price_loop, length_draws. Qed.

Lemma default_history_pos g start : Forall (fun x => 0 < x) (default_history g start).
Proof.
  unfold default_history. rewrite stock_price_loop_gbm by apply length_draws.
  apply gbm_path_pos; [simpl; lra | apply growth_pos].
Qed.

(** The loop from index [k] on fills the zero rows with the histories of
    consecutive windows of 250 draws. *)
Lemma simulation_fold n : forall k pre s,
  length pre = k ->
  foldlM_py (simulation_body 250) (seq k n) (pre ++ replicate n (replicate 250 0)) s
  = (Ok (pre ++ map (fun j => default_history (rs_stream s) (rs_pos s + j * 250)) (seq 0 n)),
     advance (n * 250) s).
Proof.
  induction n as [|n IH]; intros k pre s Hk.
  - cbn [seq foldlM_py map]. rewrite !app_nil_r. unfold advance.
    destruct s; cbn. by rewrite Nat.add_0_r.
  - change (seq k (S n)) with (k :: seq (S k) n).
    rewrite foldlM_py_cons, simulation_body_run. unfold np_set_row.
    rewrite length_app, length_replicate, length_default_history.
    rewrite decide_True by lia. rewrite decide_True by done.
    change (replicate (S n) ?x) with (x :: replicate n x).
    rewrite insert_app_r_alt by lia.
    replace (k - length pre)%nat with 0%nat by lia.
    change (<[0%nat := ?y]> (?x :: ?l)) with (y :: l).
    rewrite app_snoc_cons, IH by (rewrite length_app; cbn [length]; lia).
    rewrite advance_add, <- app_assoc.
    replace (S n * 250)%nat with (250 + n * 250)%nat by lia.
    rewrite (map_windows (default_history (rs_stream s))).
    change (rs_stream (advance 250 s)) with (rs_stream s).
    change (rs_pos (advance 250 s)) with (rs_pos s + 250)%nat.
    reflexivity.
Qed.

(** ** Properties of [simulation] *)

Lemma simulation_run n s :
  simulation n 250 s
  = (Ok (map (fun i => default_history (rs_stream s) (rs_pos s + i * 250)) (seq 0 n)),
     advance (n * 250) s).
Proof. exact (simulation_fold n 0 [] s eq_refl). Qed.

(** C9 [simulation(n)] with the default width 250 returns [n] rows and
    advances the cursor by [250 n]; row [i] is the history that
    [stock_price()] computes from the draws [pos + 250 i, ...,
    pos + 250 i + 249]: no row observes another row's draws. *)
Theorem simulation_rows n s :
  exists rows, simulation n 250 s = (Ok rows, advance (n * 250) s) /\ length rows = n /\
    forall i, (i < n)%nat ->
      rows !! i = Some (stock_price_loop stock_price_defaults
                          (draws (rs_stream s) (rs_pos s + i * 250) 250)).
Proof.
  rewrite simulation_run. eexists; split; [reflexivity|].
  rewrite length_map, length_seq. split; [done|].
  intros i Hi. rewrite list_lookup_fmap, lookup_seq_lt by done. reflexivity.
Qed.

(** C21 The batch invariant: [simulation(n)] returns [n] rows, each of
    exactly 250 strictly positive prices. *)
Theorem simulation_batch_invariant n s :
  exists rows, (simulation n 250 s).1 = Ok rows /\ length rows = n /\
    Forall (fun row => length row = 250%nat /\ Forall (fun x => 0 < x) row) rows.
Proof.
  rewrite simulation_run. eexists; split; [reflexivity|].
  rewrite length_map, length_seq. split; [done|].
  apply Forall_forall. intros row Hrow. apply list_elem_of_In, in_map_iff in Hrow as [j [<- _]].
  split; [apply length_default_history | apply default_history_pos].
Qed.

(** C24 [simulation(n, period)] with [n > 0] and [period <> 250] raises a
    ValueError at the first row assignment, after drawing the 250
    normals of one history: [stock_price()] ignores [period]. *)
Theorem simulation_period_mismatch n w s :
  (0 < n)%nat -> w <> 250%nat ->
  simulation n w s = (Err ValueError, advance 250 s).
Proof.
  intros Hn Hw. destruct n as [|n]; [lia|].
  unfold simulation. change (seq 0 (S n)) with (0%nat :: seq 1 n).
  rewrite foldlM_py_cons, simulation_body_run. unfold np_set_row.
  rewrite length_replicate, length_default_history.
  rewrite decide_True by lia. rewrite decide_False by lia. rewrite decide_False by lia.
  reflexivity.
Qed.

(** [simulation(0)] raises nothing: it returns an empty batch and
    draws nothing, where the spec asks for an error. *)
Theorem simulation_empty w s : simulation 0 w s = (Ok [], s).
Proof. reflexivity. Qed.

(** C18 [simulation(n, period)] never rewinds the random state: on every
    run, the ones that raise included, the stream is left as it is and
    the cursor ends at or after where it started, as the spec asks of
    the batch simulator. *)
Theorem simulation_never_rewinds n w s :
  rs_stream (simulation n w s).2 = rs_stream s /\ (rs_pos s <= rs_pos (simulation n w s).2)%nat.
Proof.
  apply draw_reach_iff. revert s. apply only_draws_foldlM. unfold simulation_body. auto with rng.
Qed.

Lemma simulation_period_mismatch_witness :
  (0 < 1)%nat /\ 100%nat <> 250%nat /\
  simulation 1 100 zero_state = (Err ValueError, advance 250 zero_state).
Proof.
  split; [lia|]. split; [lia|].
  apply simulation_period_mismatch; lia.
Defined.
