(* ===== verification/Payoff.v ===== *)
(** * Payoff: the payoff rules of both scripts

    [src/Methodology.py] lines 46-99: each [*Price] function fills an
    array [payoffs] with one payoff per history, by a loop that carries
    the index [i].  The rules are
    - lookback call [S_T - min(vector)] (lines 51-53),
    - lookback put [max(vector) - S_T] (lines 65-67),
    - European call [max(S_T - 110, 0)] (lines 76-81),
    - European put [max(90 - S_T, 0)] (lines 90-95),
    where [S_T = vector[-1]]; [np.min]/[np.max] raise a ValueError and
    [vector[-1]] an IndexError on an empty history.

    [src/AsianOptions.py] lines 29-36: the vectorised average-strike
    payoffs [np.maximum(S[:, -1] - S_avg, 0)] and
    [np.maximum(S_avg - S[:, -1], 0)] with [S_avg] the row means without
    the last column; a NaN mean propagates through [np.maximum].

    The class [NonnegPayoff] is what a rule promises to the pricer: its
    payoffs are non-negative.  Each Methodology.py rule is an instance. *)

From S2P Require Import Prelude.

(** ** Methodology.py *)

Definition lookback_call_payoff (vector : list R) : result R :=
  K ← np_min vector;
  S_T ← py_last vector;
  mret (S_T - K).

Definition lookback_put_payoff (vector : list R) : result R :=
  K ← np_max vector;
  S_T ← py_last vector;
  mret (K - S_T).

Definition european_call_payoff (strike_price : R) (vector : list R) : result R :=
  S_T ← py_last vector;
  mret (py_max (S_T - strike_price) 0).

Definition european_put_payoff (strike_price : R) (vector : list R) : result R :=
  S_T ← py_last vector;
  mret (py_max (strike_price - S_T) 0).

(** The strikes hard-coded in [europeanCallPrice] and [europeanPutPrice]. *)
Definition call_strike : R := 110.
Definition put_strike : R := 90.

(** A [for] loop whose body may raise. *)
Fixpoint foldlM_result {A B} (f : A -> B -> result A) (l : list B) (a : A) : result A :=
  match l with
  | [] => Ok a
  | x :: l' => a' ← f a x; foldlM_result f l' a'
  end.

(** [payoffs[i] = g(vector); i += 1]. *)
Definition payoff_body (g : list R -> result R) (st : list R * nat) (vector : list R)
  : result (list R * nat) :=
  x ← g vector;
  mret (<[st.2 := x]> st.1, S st.2).

(** [payoffs = np.zeros(len(sim)); i = 0; for vector in sim: ...]. *)
Definition payoff_loop (g : list R -> result R) (sim : list (list R)) : result (list R) :=
  st ← foldlM_result (payoff_body g) sim (replicate (length sim) 0, 0%nat);
  mret st.1.

(** ** AsianOptions.py *)

(** [S_avg = np.mean(S[:, :-1], axis=1)]. *)
Definition S_avg (S : list (list R)) : list (option R) :=
  map (fun row => np_mean (removelast row)) S.

(** [S[:, -1]]. *)
Definition last_col (S : list (list R)) : list R :=
  map (fun row => row.[length row - 1]) S.

(** [np.maximum(v, b)] on a vector that may hold NaN. *)
Definition np_maximum (v : list (option R)) (b : R) : list (option R) :=
  map (fun o => (fun x => Rmax x b) <$> o) v.

(** [payoff_call = np.maximum(S[:, -1] - S_avg, 0)]. *)
Definition payoff_call (S : list (list R)) : list (option R) :=
  np_maximum (zip_with (fun s_T avg => (fun a => s_T - a) <$> avg) (last_col S) (S_avg S)) 0.

(** [payoff_put = np.maximum(S_avg - S[:, -1], 0)]. *)
Definition payoff_put (S : list (list R)) : list (option R) :=
  np_maximum (zip_with (fun avg s_T => (fun a => a - s_T) <$> avg) (S_avg S) (last_col S)) 0.

(** The average-strike payoffs of one row. *)
Definition avg_call_row (row : list R) : option R :=
  (fun a => Rmax (row.[length row - 1] - a) 0) <$> np_mean (removelast row).

Definition avg_put_row (row : list R) : option R :=
  (fun a => Rmax (a - row.[length row - 1]) 0) <$> np_mean (removelast row).

(** ** The interface between a payoff rule and the pricer *)

Class NonnegPayoff (g : list R -> result R) : Prop :=
  payoff_nonneg : forall v x, g v = Ok x -> 0 <= x.

(** A rule that raises nothing on a non-empty history. *)
Class TotalPayoff (g : list R -> result R) : Prop :=
  payoff_total : forall v, v <> [] -> exists x, g v = Ok x.

(** ** The payoff loop computes [mapM] *)

Lemma foldlM_result_cons {A B} (f : A -> B -> result A) x l a :
  foldlM_result f (x :: l) a = (f a x ≫= foldlM_result f l).
Proof. reflexivity. Qed.

Lemma mapM_result_cons (g : list R -> result R) v sim :
  mapM g (v :: sim) = (x ← g v; xs ← mapM g sim; mret (x :: xs)).
Proof. reflexivity. Qed.

Lemma payoff_body_Ok g st v x :
  g v = Ok x -> payoff_body g st v = Ok (<[st.2 := x]> st.1, S st.2).
Proof. unfold payoff_body. by intros ->. Qed.

Lemma payoff_body_Err g st v e : g v = Err e -> payoff_body g st v = Err e.
Proof. unfold payoff_body. by intros ->. Qed.

Lemma payoff_fold g sim : forall pre,
  foldlM_result (payoff_body g) sim (pre ++ replicate (length sim) 0, length pre)
  = (fun xs => (pre ++ xs, (length pre + length sim)%nat)) <$> mapM g sim.
Proof.
  induction sim as [|v sim IH]; intros pre.
  - cbn. by rewrite app_nil_r, Nat.add_0_r.
  - rewrite foldlM_result_cons, mapM_result_cons.
    destruct (g v) as [x|e] eqn:E;
      [rewrite (payoff_body_Ok _ _ _ x E) | rewrite (payoff_body_Err _ _ _ e E)];
      cbn [mbind result_bind mret result_ret fmap result_fmap]; [|done].
    cbn [fst snd replicate length].
    rewrite insert_app_r_alt, Nat.sub_diag by lia.
    replace (S (length pre)) with (length (pre ++ [x])) by (rewrite length_app; simpl; lia).
    cbn [insert list_insert]. rewrite app_snoc_cons, IH.
    destruct (mapM g sim) as [xs|e]; cbn [mbind result_bind mret result_ret fmap result_fmap]; [|done].
    rewrite <- app_assoc, length_app. cbn [length app]. do 2 f_equal. lia.
Qed.

Lemma payoff_loop_is_mapM g sim : payoff_loop g sim = mapM g sim.
Proof.
  unfold payoff_loop.
  change (replicate (length sim) 0, 0%nat) with ([] ++ replicate (length sim) 0, length (@nil R)).
  rewrite payoff_fold. by destruct (mapM g sim).
Qed.

Lemma mapM_nonneg g `{!NonnegPayoff g} sim ps :
  mapM g sim = Ok ps -> Forall (fun x => 0 <= x) ps.
Proof.
  revert ps; induction sim as [|v sim IH]; intros ps H; simpl in H.
  - injection H as <-. constructor.
  - result_inv H. subst. constructor; [eapply payoff_nonneg; eauto | by apply IH].
Qed.

Lemma lookback_call_payoff_Ok v x :
  lookback_call_payoff v = Ok x ->
  exists m s, np_min v = Ok m /\ py_last v = Ok s /\ x = s - m.
Proof. unfold lookback_call_payoff. intros H. result_inv H. eauto. Qed.

Lemma lookback_put_payoff_Ok v x :
  lookback_put_payoff v = Ok x ->
  exists m s, np_max v = Ok m /\ py_last v = Ok s /\ x = m - s.
Proof. unfold lookback_put_payoff. intros H. result_inv H. eauto. Qed.

#[export] Instance lookback_call_nonneg_inst : NonnegPayoff lookback_call_payoff.
Proof.
  intros v x H. apply lookback_call_payoff_Ok in H as (m & s & Hm & Hs & ->).
  pose proof (np_min_le_last v m s Hm Hs). lra.
Qed.

#[export] Instance lookback_put_nonneg_inst : NonnegPayoff lookback_put_payoff.
Proof.
  intros v x H. apply lookback_put_payoff_Ok in H as (m & s & Hm & Hs & ->).
  pose proof (np_max_ge_last v m s Hm Hs). lra.
Qed.

#[export] Instance european_call_nonneg_inst K : NonnegPayoff (european_call_payoff K).
Proof.
  intros v x H. unfold european_call_payoff in H. result_inv H. subst.
  rewrite py_max_Rmax. apply Rmax_r.
Qed.

#[export] Instance european_put_nonneg_inst K : NonnegPayoff (european_put_payoff K).
Proof.
  intros v x H. unfold european_put_payoff in H. result_inv H. subst.
  rewrite py_max_Rmax. apply Rmax_r.
Qed.

Lemma mapM_result_Ok (g : list R -> result R) sim : forall ps,
  mapM g sim = Ok ps <-> Forall2 (fun v x => g v = Ok x) sim ps.
Proof.
  induction sim as [|v sim IH]; intros ps.
  - cbn. split; [intros [= <-]; constructor | intros H; inversion H; done].
  - rewrite mapM_result_cons. split.
    + intros H. result_inv H. subst. constructor; [done | by apply IH].
    + intros H. inversion H as [|? x ? xs Hx Hxs]; subst.
      rewrite Hx. apply IH in Hxs. by rewrite Hxs.
Qed.

(** C11 The lookback call pays the largest gain [S_T - y] over the
    observed prices [y] of the history: [S_T - min(vector)] is that
    maximum, and the rule succeeds exactly on a non-empty history. *)
Theorem lookback_call_payoff_spec v x :
  lookback_call_payoff v = Ok x <->
  exists s, py_last v = Ok s /\ (forall y, In y v -> s - y <= x) /\ (exists y, In y v /\ x = s - y).
Proof.
  split.
  - intros H. apply lookback_call_payoff_Ok in H as (m & s & Hm & Hs & ->).
    apply np_min_spec in Hm as [Hin Hle].
    exists s. split; [done|]. split; [intros y Hy; specialize (Hle y Hy); lra | eauto].
  - intros (s & Hs & Hle & y & Hy & ->). unfold lookback_call_payoff.
    rewrite (bind_Ok _ _ y); [by rewrite Hs|].
    apply np_min_spec. split; [done|]. intros z Hz. specialize (Hle z Hz). lra.
Qed.

(** C12 The lookback put pays the largest [y - S_T] over the observed
    prices [y] of the history. *)
Theorem lookback_put_payoff_spec v x :
  lookback_put_payoff v = Ok x <->
  exists s, py_last v = Ok s /\ (forall y, In y v -> y - s <= x) /\ (exists y, In y v /\ x = y - s).
Proof.
  split.
  - intros H. apply lookback_put_payoff_Ok in H as (m & s & Hm & Hs & ->).
    apply np_max_spec in Hm as [Hin Hle].
    exists s. split; [done|]. split; [intros y Hy; specialize (Hle y Hy); lra | eauto].
  - intros (s & Hs & Hle & y & Hy & ->). unfold lookback_put_payoff.
    rewrite (bind_Ok _ _ y); [by rewrite Hs|].
    apply np_max_spec. split; [done|]. intros z Hz. specialize (Hle z Hz). lra.
Qed.

Lemma payoff_call_rows S : payoff_call S = map avg_call_row S.
Proof.
  unfold payoff_call, np_maximum, last_col, S_avg, avg_call_row.
  induction S as [|row S IH]; [done|]. cbn [map zip_with].
  rewrite IH. f_equal. by destruct (np_mean (removelast row)).
Qed.

Lemma payoff_put_rows S : payoff_put S = map avg_put_row S.
Proof.
  unfold payoff_put, np_maximum, last_col, S_avg, avg_put_row.
  induction S as [|row S IH]; [done|]. cbn [map zip_with].
  rewrite IH. f_equal. by destruct (np_mean (removelast row)).
Qed.

Lemma mapM_result_Err (g : list R -> result R) sim e :
  mapM g sim = Err e <->
  exists pre v post, sim = pre ++ v :: post /\
    Forall (fun w => exists x, g w = Ok x) pre /\ g v = Err e.
Proof.
  induction sim as [|w sim IH].
  - cbn. split; [done|]. intros (pre & v & post & H & _). by destruct pre.
  - rewrite mapM_result_cons. split.
    + intros H. destruct (g w) as [x|e'] eqn:Ew; cbn in H.
      * destruct (mapM g sim) eqn:Es; cbn in H; [done|]. injection H as ->.
        destruct (proj1 IH eq_refl) as (pre & v & post & -> & Hpre & Hv).
        exists (w :: pre), v, post. split; [done|]. split; [constructor; eauto | done].
      * injection H as ->. exists [], w, sim. split; [done|]. split; [constructor | done].
    + intros (pre & v & post & Heq & Hpre & Hv).
      destruct pre as [|w' pre]; cbn in Heq; injection Heq as -> Heq.
      * by rewrite Hv.
      * inversion Hpre as [|? ? [x Hx] Hpre']; subst.
        rewrite Hx. cbn. rewrite (proj2 IH); [done|]. exists pre, v, post; auto.
Qed.

(** The payoff loop over a permuted batch succeeds exactly when it
    succeeds on the batch, with the payoffs permuted the same way. *)
Lemma mapM_result_perm (g : list R -> result R) sim sim' ps :
  sim ≡ₚ sim' -> mapM g sim = Ok ps -> exists ps', mapM g sim' = Ok ps' /\ ps ≡ₚ ps'.
Proof.
  intros Hp Hps. apply mapM_result_Ok in Hps.
  destruct (Permutation_Forall2 Hp Hps) as (ps' & Hpp & Hf).
  exists ps'. split; [by apply mapM_result_Ok | done].
Qed.

Lemma min_last_total v : v <> [] ->
  exists m m' s, np_min v = Ok m /\ np_max v = Ok m' /\ py_last v = Ok s.
Proof.
  intros Hv. destruct (py_last_nonempty v Hv) as [s Hs].
  destruct v as [|x xs]; [done|]. do 3 eexists. split; [reflexivity|]. split; [reflexivity|]. exact Hs.
Qed.

#[export] Instance lookback_call_total : TotalPayoff lookback_call_payoff.
Proof.
  intros v Hv. destruct (min_last_total v Hv) as (m & m' & s & H1 & H2 & H3).
  unfold lookback_call_payoff. rewrite H1. cbn. rewrite H3. eauto.
Qed.

#[export] Instance lookback_put_total : TotalPayoff lookback_put_payoff.
Proof.
  intros v Hv. destruct (min_last_total v Hv) as (m & m' & s & H1 & H2 & H3).
  unfold lookback_put_payoff. rewrite H2. cbn. rewrite H3. eauto.
Qed.

#[export] Instance european_call_total K : TotalPayoff (european_call_payoff K).
Proof.
  intros v Hv. destruct (py_last_nonempty v Hv) as [s Hs].
  unfold european_call_payoff. rewrite Hs. eauto.
Qed.

#[export] Instance european_put_total K : TotalPayoff (european_put_payoff K).
Proof.
  intros v Hv. destruct (py_last_nonempty v Hv) as [s Hs].
  unfold european_put_payoff. rewrite Hs. eauto.
Qed.

Lemma mapM_total g `{!TotalPayoff g} sim :
  Forall (fun v => v <> []) sim -> exists ps, mapM g sim = Ok ps.
Proof.
  induction 1 as [|v sim Hv _ [ps Hps]]; [by exists []|].
  destruct (payoff_total v Hv) as [x Hx].
  exists (x :: ps). rewrite mapM_result_cons, Hx. cbn. by rewrite Hps.
Qed.

(** ** Properties of the payoff rules *)

(** C10 The payoff loop of the [*Price] functions (index [i] carried by
    hand) succeeds exactly when the rule succeeds on every history, and
    then [payoffs[i]] is the payoff of history [i]. *)
Theorem payoff_loop_spec g sim ps :
  payoff_loop g sim = Ok ps <-> Forall2 (fun v x => g v = Ok x) sim ps.
Proof. rewrite payoff_loop_is_mapM. apply mapM_result_Ok. Qed.

(** C25 The payoff loop raises the error of the first history on which
    the rule raises, all earlier histories having succeeded. *)
Theorem payoff_loop_error g sim e :
  payoff_loop g sim = Err e <->
  exists pre v post, sim = pre ++ v :: post /\
    Forall (fun w => exists x, g w = Ok x) pre /\ g v = Err e.
Proof. rewrite payoff_loop_is_mapM. apply mapM_result_Err. Qed.

(** C13 Both lookback payoffs are non-negative: the minimum (maximum) of
    the history is at most (at least) its last price. *)
Theorem lookback_payoffs_nonneg v c p :
  lookback_call_payoff v = Ok c -> lookback_put_payoff v = Ok p -> 0 <= c /\ 0 <= p.
Proof.
  intros Hc Hp. split; [by apply (payoff_nonneg (g := lookback_call_payoff)) in Hc
                       | by apply (payoff_nonneg (g := lookback_put_payoff)) in Hp].
Qed.

(** On an empty history the lookback rules raise the ValueError of
    [np.min]/[np.max] (evaluated before [vector[-1]]) and the European
    rules the IndexError of [vector[-1]]. *)
Theorem payoff_empty_errors K :
  lookback_call_payoff [] = Err ValueError /\ lookback_put_payoff [] = Err ValueError /\
  european_call_payoff K [] = Err IndexError /\ european_put_payoff K [] = Err IndexError.
Proof. repeat split. Qed.

(** Put-call parity of the European rules at a common strike [K]:
    [call - put = S_T - K]. *)
Theorem european_parity K v s :
  py_last v = Ok s ->
  exists c p, european_call_payoff K v = Ok c /\ european_put_payoff K v = Ok p /\ c - p = s - K.
Proof.
  intros Hs. unfold european_call_payoff, european_put_payoff. rewrite Hs. cbn.
  do 2 eexists. split; [reflexivity|]. split; [reflexivity|].
  rewrite !py_max_Rmax. replace (K - s) with (- (s - K)) by ring. apply Rmax_parity.
Qed.

Lemma avg_call_row_Some row c :
  avg_call_row row = Some c ->
  exists a, np_mean (removelast row) = Some a /\ c = Rmax (row.[length row - 1] - a) 0.
Proof. unfold avg_call_row. destruct (np_mean (removelast row)); cbn; [intros [= <-]|]; eauto. done. Qed.

Lemma avg_put_row_Some row p :
  avg_put_row row = Some p ->
  exists a, np_mean (removelast row) = Some a /\ p = Rmax (a - row.[length row - 1]) 0.
Proof. unfold avg_put_row. destruct (np_mean (removelast row)); cbn; [intros [= <-]|]; eauto. done. Qed.

(** C14 Every average-strike payoff of AsianOptions.py that is a number
    (not NaN) is non-negative, for the call and for the put. *)
Theorem avg_strike_nonneg S :
  Forall (fun o => forall x, o = Some x -> 0 <= x) (payoff_call S) /\
  Forall (fun o => forall x, o = Some x -> 0 <= x) (payoff_put S).
Proof.
  rewrite payoff_call_rows, payoff_put_rows. split; apply Forall_map, Forall_true.
  - intros row x Hx. apply avg_call_row_Some in Hx as (a & _ & ->). apply Rmax_r.
  - intros row x Hx. apply avg_put_row_Some in Hx as (a & _ & ->). apply Rmax_r.
Qed.

(** Parity of the average-strike payoffs of a path: call minus put is
    [S_T - S_avg]. *)
Theorem avg_strike_parity S i c p :
  payoff_call S !! i = Some (Some c) -> payoff_put S !! i = Some (Some p) ->
  exists row a, S !! i = Some row /\ S_avg S !! i = Some (Some a) /\
    c - p = row.[length row - 1] - a.
Proof.
  rewrite payoff_call_rows, payoff_put_rows, !list_lookup_fmap.
  destruct (S !! i) as [row|] eqn:Hi; cbn; [|done].
  intros [= Hc] [= Hp].
  apply avg_call_row_Some in Hc as (a & Ha & ->).
  apply avg_put_row_Some in Hp as (a' & Ha' & ->). rewrite Ha in Ha'. injection Ha' as <-.
  exists row, a. unfold S_avg. rewrite list_lookup_fmap, Hi. cbn. rewrite Ha.
  split; [done|]. split; [done|].
  replace (a - row.[length row - 1]) with (- (row.[length row - 1] - a)) by ring.
  apply Rmax_parity.
Qed.

(** A path with at most one price (N = 0) has no average: both of its
    average-strike payoffs are NaN. *)
Theorem avg_strike_nan S i row :
  S !! i = Some row -> (length row <= 1)%nat ->
  payoff_call S !! i = Some None /\ payoff_put S !! i = Some None.
Proof.
  intros Hi Hl. rewrite payoff_call_rows, payoff_put_rows, !list_lookup_fmap, Hi. cbn.
  unfold avg_call_row, avg_put_row.
  destruct row as [|x [|y row]]; cbn in Hl |- *; [done | done | lia].
Qed.

(** ** Concrete instances of the theorems *)

Lemma lookback_payoffs_nonneg_witness :
  lookback_call_payoff [100; 90; 120] = Ok (120 - Rmin (Rmin 100 90) 120) /\
  lookback_put_payoff [100; 90; 120] = Ok (Rmax (Rmax 100 90) 120 - 120) /\
  0 <= 120 - Rmin (Rmin 100 90) 120 /\ 0 <= Rmax (Rmax 100 90) 120 - 120.
Proof.
  split; [reflexivity|]. split; [reflexivity|].
  apply (lookback_payoffs_nonneg [100; 90; 120]); reflexivity.
Defined.

Lemma european_parity_witness :
  py_last [100; 120] = Ok 120 /\
  exists c p, european_call_payoff 110 [100; 120] = Ok c /\
    european_put_payoff 110 [100; 120] = Ok p /\ c - p = 120 - 110.
Proof. split; [reflexivity|]. apply european_parity. reflexivity. Defined.

Lemma avg_strike_parity_witness :
  exists row a, [[100; 110; 120]] !! 0%nat = Some row /\
    S_avg [[100; 110; 120]] !! 0%nat = Some (Some a) /\
    Rmax (120 - (100 + (110 + 0)) / INR 2) 0 - Rmax ((100 + (110 + 0)) / INR 2 - 120) 0
    = row.[length row - 1] - a.
Proof. apply avg_strike_parity; reflexivity. Defined.

Lemma avg_strike_nan_witness :
  [[100]] !! 0%nat = Some [100] /\ (length [100] <= 1)%nat /\
  payoff_call [[100]] !! 0%nat = Some None /\ payoff_put [[100]] !! 0%nat = Some None.
Proof.
  split; [reflexivity|]. split; [cbn; lia|].
  apply (avg_strike_nan [[100]] 0 [100]); [reflexivity | cbn; lia].
Defined.

Lemma avg_call_row_long row :
  (2 <= length row)%nat ->
  avg_call_row row
  = Some (Rmax (row.[length row - 1] - Σ (removelast row) / INR (length row - 1)) 0).
Proof.
  intros Hl. unfold avg_call_row. rewrite np_mean_nonempty, length_removelast.
  - cbn. by replace (Init.Nat.pred (length row)) with (length row - 1)%nat by lia.
  - intros H. apply (f_equal length) in H. rewrite length_removelast in H. cbn in H. lia.
Qed.

Lemma avg_put_row_long row :
  (2 <= length row)%nat ->
  avg_put_row row
  = Some (Rmax (Σ (removelast row) / INR (length row - 1) - row.[length row - 1]) 0).
Proof.
  intros Hl. unfold avg_put_row. rewrite np_mean_nonempty, length_removelast.
  - cbn. by replace (Init.Nat.pred (length row)) with (length row - 1)%nat by lia.
  - intros H. apply (f_equal length) in H. rewrite length_removelast in H. cbn in H. lia.
Qed.
