(* ===== verification/Pricer.v ===== *)
(** * Pricer: from payoffs to a price

    [src/Methodology.py] lines 28-31, [option_price]: the sum of the
    payoffs divided by the hard-coded 10000 (not by their number),
    discounted by [exp(-T * rate)], and truncated to four decimals by
    [int(... * 10000) / 10000].

    [src/AsianOptions.py] lines 16 and 39-40: [discount_factor =
    np.exp(-r * T)] times [np.mean] of a payoff vector, NaN when the
    vector is empty or holds a NaN. *)

From S2P Require Import Prelude Payoff.

(** [int(np.sum(option_payoff) / 10000 * np.exp(-T * rate) * 10000)]:
    the price in ticks of [1/10000]. *)
Definition option_price_ticks (option_payoff : list R) (rate T : R) : Z :=
  py_int (Σ option_payoff / 10000 * exp (- T * rate) * 10000).

Definition option_price (option_payoff : list R) (rate T : R) : R :=
  IZR (option_price_ticks option_payoff rate T) / 10000.

(** The default arguments [rate=0.05, T=0.75]. *)
Definition option_price_rate : R := 0.05.
Definition option_price_T : R := 0.75.

Definition option_price_default (option_payoff : list R) : R :=
  option_price option_payoff option_price_rate option_price_T.

(** [discount_factor = np.exp(-r * T)]. *)
Definition discount_factor (r T : R) : R := exp (- r * T).

(** [np.mean] of a vector that may hold NaN. *)
Definition np_mean_nan (v : list (option R)) : option R :=
  xs ← mapM (fun o => o) v; np_mean xs.

(** [discount_factor * np.mean(payoff)]. *)
Definition discounted_mean (df : R) (v : list (option R)) : option R :=
  (fun m => df * m) <$> np_mean_nan v.

(** ** Truncation *)

Lemma option_price_trunc_bounds l rate T :
  0 <= Σ l / 10000 * exp (- T * rate) ->
  0 <= option_price l rate T <= Σ l / 10000 * exp (- T * rate) /\
  Σ l / 10000 * exp (- T * rate) - option_price l rate T < / 10000.
Proof.
  intros H. unfold option_price, option_price_ticks.
  set (y := Σ l / 10000 * exp (- T * rate)) in *.
  destruct (py_int_nonneg (y * 10000)) as [[H0 H1] H2]; [lra|].
  set (z := IZR (py_int (y * 10000))) in *.
  split; [split|]; unfold Rdiv; lra.
Qed.

Lemma exact_price_nonneg l rate T :
  Forall (fun x => 0 <= x) l -> 0 <= Σ l / 10000 * exp (- T * rate).
Proof.
  intros Hl. apply Rmult_le_pos; [|apply Rlt_le, exp_pos].
  unfold Rdiv. apply Rmult_le_pos; [by apply np_sum_nonneg | lra].
Qed.

(** ** Means of vectors that may hold NaN *)

Lemma mapM_id_scale k (v : list (option R)) :
  mapM (fun o => o) (map (fun o => (fun x => k * x) <$> o) v)
  = map (Rmult k) <$> mapM (fun o => o) v.
Proof.
  induction v as [|o v IH]; [done|]. cbn [map].
  destruct o as [x|]; cbn; [|done]. rewrite IH.
  by destruct (mapM (fun o => o) v).
Qed.

Lemma mapM_id_replicate n (x : R) :
  mapM (fun o => o) (replicate n (Some x)) = Some (replicate n x).
Proof. induction n as [|n IH]; [done|]. cbn. by rewrite IH. Qed.

Lemma np_mean_scale k xs :
  np_mean (map (Rmult k) xs) = (fun m => k * m) <$> np_mean xs.
Proof.
  destruct xs as [|x xs]; [done|].
  change (np_mean (map (Rmult k) (x :: xs)))
    with (Some (Σ (map (Rmult k) (x :: xs)) / INR (length (map (Rmult k) (x :: xs))))).
  change (np_mean (x :: xs)) with (Some (Σ (x :: xs) / INR (length (x :: xs)))).
  rewrite np_sum_scale, length_map. cbn [fmap option_fmap option_map]. f_equal.
  unfold Rdiv. ring.
Qed.

Lemma mapM_id_map_Some {A} (f : A -> R) (l : list A) :
  mapM (fun o => o) (map (fun x => Some (f x)) l) = Some (map f l).
Proof. induction l as [|x l IH]; [done|]. cbn. by rewrite IH. Qed.

Lemma discounted_mean_all_Some {A} df (f : A -> R) (l : list A) :
  l <> [] ->
  discounted_mean df (map (fun x => Some (f x)) l) = Some (df * (Σ (map f l) / INR (length l))).
Proof.
  intros Hl. unfold discounted_mean, np_mean_nan. rewrite mapM_id_map_Some. cbn.
  rewrite np_mean_nonempty, length_map; [done|].
  intros H. apply (f_equal length) in H. rewrite length_map in H. destruct l; done.
Qed.

(** ** Order independence *)

#[export] Instance option_price_ticks_perm : Proper ((≡ₚ) ==> (=) ==> (=) ==> (=)) option_price_ticks.
Proof. intros l l' Hl ? rate -> ? T ->. unfold option_price_ticks. by rewrite Hl. Qed.

(** ** Properties of [option_price] *)

(** C8 For non-negative payoffs, [option_price] truncates the discounted
    sum over 10000 to four decimals: the result lies in
    [(exact - 1/10000, exact]] and is non-negative. *)
Theorem option_price_bounds l rate T :
  Forall (fun x => 0 <= x) l ->
  0 <= option_price l rate T <= Σ l / 10000 * exp (- T * rate) /\
  Σ l / 10000 * exp (- T * rate) - option_price l rate T < / 10000.
Proof. intros Hl. by apply option_price_trunc_bounds, exact_price_nonneg. Qed.

(** ** Properties of the discounted mean of AsianOptions.py *)

(** C19 The discounted mean is linear, as the spec asks of the Pricer:
    scaling every payoff by [k] scales the price by [k] (NaN stays
    NaN). *)
Theorem discounted_mean_linear k df v :
  discounted_mean df (map (fun o => (fun x => k * x) <$> o) v)
  = (fun p => k * p) <$> discounted_mean df v.
Proof.
  unfold discounted_mean, np_mean_nan. rewrite mapM_id_scale.
  destruct (mapM (fun o => o) v) as [xs|]; cbn; [|done].
  rewrite np_mean_scale. destruct (np_mean xs); cbn; [|done]. f_equal. ring.
Qed.

(** C20 A non-empty vector of zero payoffs has price exactly 0, and a
    single payoff [x] has price [df * x]. *)
Theorem discounted_mean_zero_single df n x :
  (0 < n)%nat ->
  discounted_mean df (replicate n (Some 0)) = Some 0 /\ discounted_mean df [Some x] = Some (df * x).
Proof.
  intros Hn. unfold discounted_mean, np_mean_nan. rewrite mapM_id_replicate.
  destruct n as [|n]; [lia|]. split; cbn - [INR].
  - rewrite np_sum_replicate. f_equal. unfold Rdiv. ring.
  - f_equal. unfold np_sum; cbn. field.
Qed.

(** ** Concrete instances of the theorems *)

Lemma option_price_bounds_witness :
  0 <= option_price [1; 2] 0.05 0.75 <= Σ [1; 2] / 10000 * exp (- (0.75) * 0.05) /\
  Σ [1; 2] / 10000 * exp (- (0.75) * 0.05) - option_price [1; 2] 0.05 0.75 < / 10000.
Proof. apply option_price_bounds. repeat constructor; lra. Defined.

Lemma discounted_mean_zero_single_witness :
  discounted_mean (exp (- (0.05) * 0.75)) (replicate 3 (Some 0)) = Some 0 /\
  discounted_mean (exp (- (0.05) * 0.75)) [Some 7] = Some (exp (- (0.05) * 0.75) * 7).
Proof. apply discounted_mean_zero_single. lia. Defined.

