(* ===== verification/Format.v ===== *)
(** * Format: the text of the printed numbers

    Both scripts print numbers as text.  [src/Methodology.py] lines 56-57,
    70-71, 84-85 and 98-99 print ["..." + str(option_price(payoffs))],
    where [option_price] returns the float [k / 10000] of an integer [k]
    of ticks; Python's [str] of such a float is its shortest decimal
    form: an optional ["-"], the integer digits, a ["."] and the four
    fraction digits with trailing zeros dropped (at least one kept)
    ([py_str_ticks]).  [src/AsianOptions.py] lines 46, 63-64 and
    [src/Methodology.py] line 37 format with [{x:.2f}]: the value rounded
    half-to-even to cents, two fraction digits, ["nan"] for NaN
    ([format_2f]).

    [parse_decimal w] reads such a text back into an integer count of
    [10^-w] units.  The lemmas [py_str_ticks_parse] and [format_2f_parse]
    are the round trips of the two printers; the claims about the printed
    lines of the scripts (Methodology.v, AsianOptions.v) use them to say
    which number each line shows. *)

From S2P Require Import Prelude.
From Stdlib Require Import Ascii String DecimalString DecimalNat.

Local Open Scope nat_scope.
Local Open Scope string_scope.

(** ** Integer digits *)

(** The decimal digits of a natural number, as [str(int)] prints them. *)
Definition nat_str (n : nat) : string := NilZero.string_of_uint (Nat.to_uint n).

Definition is_digit (c : ascii) : bool :=
  (Nat.leb 48 (nat_of_ascii c) && Nat.leb (nat_of_ascii c) 57)%bool.

Fixpoint all_digits (s : string) : bool :=
  match s with
  | EmptyString => true
  | String c s => is_digit c && all_digits s
  end.

(** The digit character of [d < 10]. *)
Definition digit_char (d : nat) : ascii := ascii_of_nat (48 + d).

(** ** Fraction digits *)

(** [str] of a float with at most four decimals: the four fraction digits
    of [f < 10000] with trailing zeros dropped, at least one kept. *)
Fixpoint strip_zeros (l : list nat) : list nat :=
  match l with
  | [] => []
  | d :: l => match strip_zeros l with [] => if Nat.eqb d 0 then [] else [d] | l' => d :: l' end
  end.

Definition digits_str (l : list nat) : string :=
  fold_right (fun d s => String (digit_char d) s) EmptyString l.

Definition frac4 (f : nat) : string :=
  let ds := strip_zeros [f / 1000; f / 100 mod 10; f / 10 mod 10; f mod 10] in
  match ds with [] => "0" | _ => digits_str ds end.

(** The two fraction digits of [{x:.2f}] for [f < 100]. *)
Definition pad2 (f : nat) : string :=
  String (digit_char (f / 10)) (String (digit_char (f mod 10)) EmptyString).

(** ** Printing *)

(** [str(k / 10000)] for an integer [k]. *)
Definition py_str_ticks (k : Z) : string :=
  let a := Z.abs k in
  (if (k <? 0)%Z then "-" else "")
    ++ nat_str (Z.to_nat (a / 10000)) ++ String "." (frac4 (Z.to_nat (a mod 10000))).

(** Rounding half to even, as [format] rounds the last printed digit. *)
Definition round_half_even (y : R) : Z :=
  let f := Int_part y in
  let d := (y - IZR f)%R in
  if Rlt_dec d (1 / 2)%R then f
  else if Rlt_dec (1 / 2)%R d then (f + 1)%Z
  else if Z.even f then f else (f + 1)%Z.

(** [f"{x:.2f}"]; NaN is [None]. *)
Definition format_2f (x : option R) : string :=
  match x with
  | None => "nan"
  | Some x =>
      let c := Z.to_nat (round_half_even (Rabs x * 100)%R) in
      (if Rlt_dec x 0%R then "-" else "")
        ++ nat_str (c / 100) ++ String "." (pad2 (c mod 100))
  end.

(** ** Parsing *)

(** The value and the number of the digits of a non-empty digit string. *)
Fixpoint parse_digits_acc (acc len : nat) (s : string) : option (nat * nat) :=
  match s with
  | EmptyString => Some (acc, len)
  | String c s =>
      if is_digit c then parse_digits_acc (10 * acc + (nat_of_ascii c - 48)) (S len) s else None
  end.

Definition parse_digits (s : string) : option (nat * nat) :=
  match s with EmptyString => None | _ => parse_digits_acc 0 0 s end.

(** A fraction of at most [w] digits, in units of [10^-w]. *)
Definition parse_frac (w : nat) (s : string) : option nat :=
  '(v, len) ← parse_digits s;
  if Nat.leb len w then Some (v * 10 ^ (w - len)) else None.

Definition parse_nat (s : string) : option nat :=
  Nat.of_uint <$> NilZero.uint_of_string s.

(** Split at the first ["."]. *)
Fixpoint split_dot (s : string) : option (string * string) :=
  match s with
  | EmptyString => None
  | String c s =>
      if Ascii.eqb c "." then Some (EmptyString, s)
      else '(a, b) ← split_dot s; Some (String c a, b)
  end.

(** A decimal text ["-"? digits "." digits] as an integer count of
    [10^-w] units. *)
Definition parse_decimal (w : nat) (s : string) : option Z :=
  let '(neg, s') := match s with String "-" s' => (true, s') | _ => (false, s) end in
  '(ip, fp) ← split_dot s';
  n ← parse_nat ip;
  f ← parse_frac w fp;
  let v := (Z.of_nat n * 10 ^ Z.of_nat w + Z.of_nat f)%Z in
  Some (if neg then (- v)%Z else v).

(** ** Digit strings *)

Lemma all_digits_uint d : all_digits (NilEmpty.string_of_uint d) = true.
Proof. induction d; cbn; auto. Qed.

Lemma to_uint_nonnil n : Nat.to_uint n <> Decimal.Nil.
Proof.
  intros H. pose proof (Unsigned.of_to n) as Hn. rewrite H in Hn. cbn in Hn. subst n.
  discriminate H.
Qed.

Lemma all_digits_nat_str n : all_digits (nat_str n) = true.
Proof. unfold nat_str, NilZero.string_of_uint. destruct (Nat.to_uint n); try reflexivity; apply all_digits_uint. Qed.

Lemma nat_str_nonempty n : nat_str n <> EmptyString.
Proof.
  unfold nat_str, NilZero.string_of_uint. pose proof (to_uint_nonnil n).
  by destruct (Nat.to_uint n).
Qed.

Lemma parse_nat_str n : parse_nat (nat_str n) = Some n.
Proof.
  unfold parse_nat, nat_str. rewrite NilZero.usu by apply to_uint_nonnil.
  cbn. by rewrite Unsigned.of_to.
Qed.

Lemma split_dot_digits a b : all_digits a = true -> split_dot (a ++ String "." b) = Some (a, b).
Proof.
  induction a as [|c a IH]; cbn; [done|]. intros [Hc Ha]%andb_prop.
  rewrite IH by done. by destruct c as [[] [] [] [] [] [] [] []].
Qed.

Lemma nat_str_head n :
  exists c a, nat_str n = String c a /\ is_digit c = true /\ all_digits a = true.
Proof.
  pose proof (all_digits_nat_str n) as Hn. pose proof (nat_str_nonempty n) as Hne.
  destruct (nat_str n) as [|c a]; [done|]. apply andb_prop in Hn as [Hc Ha]. eauto.
Qed.

(** The printed fraction reads back, checked on every fraction. *)
Definition frac_roundtrips (w : nat) (pr : nat -> string) : bool :=
  forallb (fun f => match parse_frac w (pr f) with Some g => Nat.eqb g f | None => false end)
          (seq 0 (10 ^ w)).

Lemma frac_roundtrips_spec w pr f :
  frac_roundtrips w pr = true -> f < 10 ^ w -> parse_frac w (pr f) = Some f.
Proof.
  intros H Hf. unfold frac_roundtrips in H. rewrite forallb_forall in H.
  specialize (H f). rewrite in_seq in H. specialize (H ltac:(lia)).
  destruct (parse_frac w (pr f)); [|done]. by apply Nat.eqb_eq in H as ->.
Qed.

Lemma frac4_check : frac_roundtrips 4 frac4 = true.
Proof. vm_compute. reflexivity. Qed.

Lemma pad2_check : frac_roundtrips 2 pad2 = true.
Proof. vm_compute. reflexivity. Qed.

(** The shared shape of both printers: sign, integer digits, ["."] and a
    fraction that reads back as [f]. *)
Lemma parse_decimal_print w (neg : bool) n fp f :
  parse_frac w fp = Some f ->
  parse_decimal w ((if neg then "-" else "") ++ nat_str n ++ String "." fp)
  = Some (if neg then (- (Z.of_nat n * 10 ^ Z.of_nat w + Z.of_nat f))%Z
          else (Z.of_nat n * 10 ^ Z.of_nat w + Z.of_nat f)%Z).
Proof.
  intros Hf. unfold parse_decimal. destruct neg; cbn [String.append].
  - rewrite split_dot_digits by apply all_digits_nat_str. cbn [mbind option_bind].
    by rewrite parse_nat_str, Hf.
  - destruct (nat_str_head n) as (c & a & E & Hc & Ha). rewrite E. cbn [String.append].
    replace (match String c (a ++ String "." fp) with
             | String "-" s' => (true, s') | _ => (false, String c (a ++ String "." fp)) end)
      with (false, String c (a ++ String "." fp))
      by (destruct c as [[] [] [] [] [] [] [] []]; done).
    change (String c (a ++ String "." fp)) with (String c a ++ String "." fp).
    rewrite split_dot_digits by (cbn; by rewrite Hc, Ha).
    cbn [mbind option_bind]. by rewrite <- E, parse_nat_str, Hf.
Qed.

(** ** Rounding *)

Local Open Scope R_scope.

Lemma round_half_even_spec y :
  Rabs (y - IZR (round_half_even y)) <= 1 / 2.
Proof.
  pose proof (base_Int_part y) as [H1 H2]. unfold round_half_even.
  set (f := Int_part y) in *.
  destruct (Rlt_dec _ _); [|destruct (Rlt_dec _ _); [|destruct (Z.even f)]];
    rewrite ?plus_IZR; apply Rabs_le; cbn; lra.
Qed.

Lemma round_half_even_nonneg y : (0 <= y)%R -> (0 <= round_half_even y)%Z.
Proof.
  intros Hy. pose proof (round_half_even_spec y) as H.
  apply Z.lt_pred_le, lt_IZR. rewrite <- Z.sub_1_r, minus_IZR.
  unfold Rabs in H. destruct (Rcase_abs _) in H; cbn; lra.
Qed.

(** ** Round trips *)

Lemma nat_div_mod_split (a u : Z) :
  (0 <= a)%Z -> (0 < u)%Z ->
  (Z.of_nat (Z.to_nat (a / u)) * u + Z.of_nat (Z.to_nat (a mod u)))%Z = a.
Proof.
  intros Ha Hu. rewrite !Z2Nat.id.
  - rewrite Z.mul_comm. symmetry. by apply Z.div_mod, Z.neq_sym, Z.lt_neq.
  - by apply Z.mod_pos_bound.
  - by apply Z.div_pos.
Qed.

Lemma frac_mod_bound (a : Z) (w : nat) :
  (Z.to_nat (a mod 10 ^ Z.of_nat w) < 10 ^ w)%nat.
Proof.
  assert (Hp : (0 < 10 ^ Z.of_nat w)%Z) by (apply Z.pow_pos_nonneg; lia).
  pose proof (Z.mod_pos_bound a _ Hp). rewrite <- (Nat2Z.id (10 ^ w)), Nat2Z.inj_pow.
  apply Z2Nat.inj_lt; lia.
Qed.

Lemma py_str_ticks_parse k : parse_decimal 4 (py_str_ticks k) = Some k.
Proof.
  unfold py_str_ticks.
  rewrite (parse_decimal_print 4 _ _ _ (Z.to_nat (Z.abs k mod 10000))).
  - change (10 ^ Z.of_nat 4)%Z with 10000%Z.
    rewrite nat_div_mod_split by lia.
    destruct (Z.ltb_spec k 0); f_equal; lia.
  - apply frac_roundtrips_spec; [exact frac4_check|].
    exact (frac_mod_bound (Z.abs k) 4).
Qed.

Lemma format_2f_parse (x : option R) :
  match x with
  | None => parse_decimal 2 (format_2f x) = None
  | Some v => exists c, parse_decimal 2 (format_2f x) = Some c /\ Rabs (100 * v - IZR c) <= 1 / 2
  end.
Proof.
  destruct x as [v|]; [|reflexivity]. unfold format_2f.
  set (r := round_half_even (Rabs v * 100)).
  assert (Hr : (0 <= r)%Z) by (apply round_half_even_nonneg, Rmult_le_pos; [apply Rabs_pos|lra]).
  assert (Hc : (Z.of_nat (Z.to_nat r / 100) * 10 ^ Z.of_nat 2 + Z.of_nat (Z.to_nat r mod 100) = r)%Z).
  { change (10 ^ Z.of_nat 2)%Z with 100%Z.
    rewrite Nat2Z.inj_div, Nat2Z.inj_mod, Z2Nat.id by done.
    rewrite Z.mul_comm. symmetry. by apply Z.div_mod. }
  assert (Hf : parse_frac 2 (pad2 (Z.to_nat r mod 100)) = Some (Z.to_nat r mod 100)).
  { apply frac_roundtrips_spec; [exact pad2_check|]. by apply Nat.mod_upper_bound. }
  pose proof (round_half_even_spec (Rabs v * 100)) as Hs. fold r in Hs.
  destruct (Rlt_dec v 0) as [Hv|Hv].
  - rewrite (parse_decimal_print 2 true _ _ _ Hf), Hc. eexists. split; [reflexivity|].
    rewrite (Rabs_left v) in Hs by done. rewrite opp_IZR.
    replace (100 * v - - IZR r) with (- (- v * 100 - IZR r)) by ring. by rewrite Rabs_Ropp.
  - rewrite (parse_decimal_print 2 false _ _ _ Hf), Hc. eexists. split; [reflexivity|].
    rewrite (Rabs_right v) in Hs by lra. by rewrite Rmult_comm.
Qed.

Lemma format_2f_nonneg v :
  0 <= v ->
  exists c, parse_decimal 2 (format_2f (Some v)) = Some c /\
    Rabs (100 * v - IZR c) <= 1 / 2 /\ (0 <= c)%Z.
Proof.
  intros Hv. destruct (format_2f_parse (Some v)) as [c [Hc Hb]].
  exists c. split; [done|]. split; [done|].
  apply Z.lt_pred_le, lt_IZR. rewrite <- Z.sub_1_r, minus_IZR.
  unfold Rabs in Hb. destruct (Rcase_abs _) in Hb; cbn; lra.
Qed.


