(* ===== verification/Report.v ===== *)
(** * Report: the reporting sink of both scripts

    Plotting ([plt.hist], [plt.axvline], [plt.legend], [plt.show]) and
    printing are the only effects of the scripts besides the random
    draws.  They are modelled as events of a report trace: a histogram of
    a payoff vector with its title, the abscissa of its average line and
    the legend text [f'Average Payoff = {avg:.2f}'], and a printed line
    of text.  The numbers in the texts are formatted as in Format.v.
    Colours, bin counts, figure sizes and font sizes are not modelled. *)

From S2P Require Import Prelude Format.
From stdpp Require Export strings.

Inductive Event :=
| Histogram (payoffs : list (option R)) (title : string) (average : option R) (legend : string)
| PrintLine (text : string).

(** The legend label of the average line, [f'Average Payoff = {avg:.2f}']
    (Methodology.py line 37, AsianOptions.py line 46). *)
Definition average_legend (average : option R) : string :=
  String.append "Average Payoff = " (format_2f average).
