(* ===== verification/Methodology.v ===== *)
(** * Methodology: the script src/Methodology.py

    Loading the module evaluates the default argument [sim=simulation()]
    of [lookBackCallPrice], [lookBackPutPrice], [europeanCallPrice] and
    [europeanPutPrice], in this order (lines 46, 60, 74, 88): four
    simulations of 10000 histories drawn one after the other from the
    global random state ([load_methodology]).  Calling one of the four
    functions without argument prices its own default batch: the payoff
    loop, [plotting] (lines 33-44) and the printed price line. *)

From S2P Require Import Prelude Rng PathGen Simulation Payoff Pricer Format Report.

Open Scope R_scope.
Open Scope pricer_scope.

(** The default [iterations] of [simulation]. *)
Definition sim_iterations : nat := 10000.

(** [plotting(payoffs, name)]: a histogram titled
    ["Payoff Histogram of " + name] with the line of [avg = np.mean(payoffs)]
    and its legend. *)
Definition plotting (payoffs : list R) (name : string) : Event :=
  let avg := np_mean payoffs in
  Histogram (map Some payoffs) (String.append "Payoff Histogram of " name) avg (average_legend avg).

(** The common body of the four [*Price] functions: the payoff loop,
    [plotting(payoffs, name)] and [print(label + str(option_price(payoffs)))]. *)
Definition price_report (g : list R -> result R) (name label : string) (sim : list (list R))
  : result (list Event) :=
  payoffs ← payoff_loop g sim;
  mret [plotting payoffs name;
        PrintLine (String.append label
                     (py_str_ticks (option_price_ticks payoffs option_price_rate option_price_T)))].

Definition lookBackCallPrice (sim : list (list R)) : result (list Event) :=
  price_report lookback_call_payoff "Lookback Call Option" "Price of Lookback Call Option: $" sim.

Definition lookBackPutPrice (sim : list (list R)) : result (list Event) :=
  price_report lookback_put_payoff "Lookback Put Option" "Price of Lookback Put Option: $" sim.

Definition europeanCallPrice (sim : list (list R)) : result (list Event) :=
  price_report (european_call_payoff call_strike) "European Call Option"
               "Price of European Call Option: $" sim.

Definition europeanPutPrice (sim : list (list R)) : result (list Event) :=
  price_report (european_put_payoff put_strike) "European Put Option"
               "Price of European Put Option: $" sim.

(** The default arguments, evaluated when the module is loaded. *)
Record ModuleDefaults := mkModuleDefaults {
  lookBackCall_sim : list (list R);
  lookBackPut_sim : list (list R);
  europeanCall_sim : list (list R);
  europeanPut_sim : list (list R)
}.

Definition load_methodology : PyM ModuleDefaults :=
  s1 ← simulation sim_iterations 250;
  s2 ← simulation sim_iterations 250;
  s3 ← simulation sim_iterations 250;
  s4 ← simulation sim_iterations 250;
  mret (mkModuleDefaults s1 s2 s3 s4).

(** A report that succeeds with a histogram and the line [label] followed
    by a decimal text that reads back as a price [p >= 0] of [k] ticks. *)
Definition prints_nonneg_price (label : string) (rep : result (list Event)) : Prop :=
  exists plot txt k, rep = Ok [plot; PrintLine (String.append label txt)] /\
    parse_decimal 4 txt = Some k /\ 0 <= IZR k / 10000.

(** ** Module load *)

Lemma four_simulations n s :
  (s1 ← simulation n 250; s2 ← simulation n 250; s3 ← simulation n 250;
   s4 ← simulation n 250; mret (mkModuleDefaults s1 s2 s3 s4)) s
  = (Ok (mkModuleDefaults
           (map (fun i => default_history (rs_stream s) (rs_pos s + 0 * (n * 250) + i * 250)) (seq 0 n))
           (map (fun i => default_history (rs_stream s) (rs_pos s + 1 * (n * 250) + i * 250)) (seq 0 n))
           (map (fun i => default_history (rs_stream s) (rs_pos s + 2 * (n * 250) + i * 250)) (seq 0 n))
           (map (fun i => default_history (rs_stream s) (rs_pos s + 3 * (n * 250) + i * 250)) (seq 0 n))),
     advance (4 * (n * 250)) s).
Proof.
  rewrite (pym_bind_Ok _ _ _ _ _ (simulation_run n s)).
  rewrite (pym_bind_Ok _ _ _ _ _ (simulation_run n (advance (n * 250) s))).
  rewrite advance_add.
  rewrite (pym_bind_Ok _ _ _ _ _ (simulation_run n (advance (n * 250 + n * 250) s))).
  rewrite advance_add.
  rewrite (pym_bind_Ok _ _ _ _ _ (simulation_run n (advance (n * 250 + n * 250 + n * 250) s))).
  rewrite advance_add. unfold mret, PyM_ret.
  change (rs_stream (advance ?x s)) with (rs_stream s).
  change (rs_pos (advance ?x s)) with (rs_pos s + x)%nat.
  rewrite Nat.mul_0_l, Nat.add_0_r, Nat.mul_1_l.
  replace (2 * (n * 250))%nat with (n * 250 + n * 250)%nat by lia.
  replace (3 * (n * 250))%nat with (n * 250 + n * 250 + n * 250)%nat by lia.
  replace (4 * (n * 250))%nat with (n * 250 + n * 250 + n * 250 + n * 250)%nat by lia.
  reflexivity.
Qed.

Lemma load_methodology_eq s :
  load_methodology s
  = (Ok (mkModuleDefaults
           (map (fun i => default_history (rs_stream s) (rs_pos s + 0 * (sim_iterations * 250) + i * 250))
                (seq 0 sim_iterations))
           (map (fun i => default_history (rs_stream s) (rs_pos s + 1 * (sim_iterations * 250) + i * 250))
                (seq 0 sim_iterations))
           (map (fun i => default_history (rs_stream s) (rs_pos s + 2 * (sim_iterations * 250) + i * 250))
                (seq 0 sim_iterations))
           (map (fun i => default_history (rs_stream s) (rs_pos s + 3 * (sim_iterations * 250) + i * 250))
                (seq 0 sim_iterations))),
     advance (4 * (sim_iterations * 250)) s).
Proof. exact (four_simulations sim_iterations s). Qed.

(** ** The [*Price] functions *)

Lemma price_report_nonneg g `{!NonnegPayoff g, !TotalPayoff g} name label sim :
  Forall (fun v => v <> []) sim -> prints_nonneg_price label (price_report g name label sim).
Proof.
  intros Hsim. destruct (mapM_total g sim Hsim) as [ps Hps].
  unfold price_report. rewrite payoff_loop_is_mapM, Hps. cbn.
  do 3 eexists. split; [reflexivity|]. split; [apply py_str_ticks_parse|].
  apply (option_price_trunc_bounds ps option_price_rate option_price_T), exact_price_nonneg.
  by apply (mapM_nonneg g sim).
Qed.

Lemma default_batch_nonempty g start n :
  Forall (fun v => v <> []) (map (fun i => default_history g (start + i * 250)) (seq 0 n)).
Proof.
  apply Forall_forall. intros v Hv. apply list_elem_of_In, in_map_iff in Hv as [i [<- _]].
  intros Hnil. pose proof (length_default_history g (start + i * 250)) as Hl.
  rewrite Hnil in Hl. discriminate.
Qed.

(** C3 Loading Methodology.py draws four batches of 10000 histories one
    after the other: the default batch of [lookBackCallPrice],
    [lookBackPutPrice], [europeanCallPrice] and [europeanPutPrice] reads
    the [k]-th consecutive window of [10000 * 250] draws, so the four
    functions price four different samples, and the cursor advances by
    [4 * 10000 * 250]. *)
Theorem load_methodology_windows s :
  exists d, load_methodology s = (Ok d, advance (4 * (sim_iterations * 250)) s) /\
    forall k, (k < 4)%nat ->
      [lookBackCall_sim d; lookBackPut_sim d; europeanCall_sim d; europeanPut_sim d] !! k
      = Some (map (fun i => default_history (rs_stream s)
                              (rs_pos s + k * (sim_iterations * 250) + i * 250))
                  (seq 0 sim_iterations)).
Proof.
  rewrite load_methodology_eq. eexists; split; [reflexivity|].
  intros k Hk. do 4 (destruct k as [|k]; [reflexivity|]). lia.
Qed.

(** C4 After loading the module, each of the four [*Price] functions
    called without argument raises nothing, draws its histogram and
    prints its label followed by a decimal text that reads back as a
    non-negative price. *)
Theorem methodology_prices_nonneg s :
  exists d s', load_methodology s = (Ok d, s') /\
    prints_nonneg_price "Price of Lookback Call Option: $" (lookBackCallPrice (lookBackCall_sim d)) /\
    prints_nonneg_price "Price of Lookback Put Option: $" (lookBackPutPrice (lookBackPut_sim d)) /\
    prints_nonneg_price "Price of European Call Option: $"
      (europeanCallPrice (europeanCall_sim d)) /\
    prints_nonneg_price "Price of European Put Option: $" (europeanPutPrice (europeanPut_sim d)).
Proof.
  rewrite load_methodology_eq. do 2 eexists. split; [reflexivity|]. cbn [lookBackCall_sim
    lookBackPut_sim europeanCall_sim europeanPut_sim].
  unfold lookBackCallPrice, lookBackPutPrice, europeanCallPrice, europeanPutPrice.
  repeat split; apply price_report_nonneg;
    first [apply default_batch_nonempty | typeclasses eauto].
Qed.

(** C16 Order independence of the [*Price] functions: on a batch of
    non-empty histories and on any reordering of it, the payoff loop
    succeeds, the histograms hold the same payoffs in the reordered way
    (so the same average and legend) and the printed price lines are the
    same text. *)
Theorem price_report_order_independent g `{!TotalPayoff g} name label sim sim' :
  Forall (fun v => v <> []) sim -> sim ≡ₚ sim' ->
  exists ps ps' line, ps ≡ₚ ps' /\
    price_report g name label sim = Ok [plotting ps name; line] /\
    price_report g name label sim' = Ok [plotting ps' name; line].
Proof.
  intros Hsim Hp. destruct (mapM_total g sim Hsim) as [ps Hps].
  destruct (mapM_result_perm g sim sim' ps Hp Hps) as (ps' & Hps' & Hpp).
  unfold price_report. rewrite !payoff_loop_is_mapM, Hps, Hps'. cbn.
  do 3 eexists. split; [exact Hpp|]. split; [reflexivity|]. by rewrite Hpp.
Qed.

(** ** Concrete instances of the theorems *)

Lemma load_methodology_windows_witness :
  exists d, load_methodology zero_state
            = (Ok d, advance (4 * (sim_iterations * 250)) zero_state) /\
    [lookBackCall_sim d; lookBackPut_sim d; europeanCall_sim d; europeanPut_sim d] !! 1%nat
    = Some (map (fun i => default_history (fun _ => 0) (0 + 1 * (sim_iterations * 250) + i * 250))
                (seq 0 sim_iterations)).
Proof.
  destruct (load_methodology_windows zero_state) as [d [Hd Hk]].
  exists d. split; [exact Hd|]. apply (Hk 1%nat). lia.
Defined.

Lemma price_report_order_independent_witness :
  Forall (fun v => v <> []) [[1; 2]; [3]] /\ [[1; 2]; [3]] ≡ₚ [[3]; [1; 2]] /\
  exists ps ps' line, ps ≡ₚ ps' /\
    lookBackCallPrice [[1; 2]; [3]] = Ok [plotting ps "Lookback Call Option"; line] /\
    lookBackCallPrice [[3]; [1; 2]] = Ok [plotting ps' "Lookback Call Option"; line].
Proof.
  assert (Hne : Forall (fun v => v <> []) [[1; 2]; [3]]) by (repeat constructor; discriminate).
  assert (Hp : [[1; 2]; [3]] ≡ₚ [[3]; [1; 2]]) by apply Permutation_swap.
  split; [exact Hne|]. split; [exact Hp|].
  exact (price_report_order_independent lookback_call_payoff _ _ _ _ Hne Hp).
Defined.
