(* ===== verification/AsianOptions.v ===== *)
(** * AsianOptions: the script src/AsianOptions.py

    The script runs at the top level: parameters (lines 5-12; [dt = T / N]
    raises ZeroDivisionError when [N = 0]), the discount factor (line 16),
    [np.random.seed(42)] and the (M, N) normal draws (lines 19-20), the
    price matrix (lines 21-26, [PathGen.asian_fill]), the row averages and
    payoffs (lines 29-36, [Payoff]), the discounted means (lines 39-40,
    [Pricer.discounted_mean]), two histograms (lines 43-60) and two
    printed prices (lines 63-64).  [Asian.script] runs it in [PyM] with
    the seeding family [fam] of numpy's generator as a parameter. *)

From S2P Require Import Prelude Rng PathGen Payoff Pricer Format Report.

Open Scope R_scope.
Open Scope pricer_scope.

Module Asian.

Record Config := mkConfig {
  S0 : R; r : R; q : R; sigma : R; T : R; N : nat; M : nat
}.

(** The parameters of lines 5-12. *)
Definition config : Config := mkConfig 100 0.05 0.02 0.4 0.75 250 10000.

(** What the script computes and leaves in its globals. *)
Record Output := mkOutput {
  S_matrix : list (list R);
  payoff_call_v : list (option R);
  payoff_put_v : list (option R);
  price_call : option R;
  price_put : option R;
  events : list Event
}.

(** [plot_histogram(payoffs, title, color, average_payoff)]. *)
Definition plot_histogram (payoffs : list (option R)) (title : string) (average_payoff : option R)
  : Event :=
  Histogram payoffs title average_payoff (average_legend average_payoff).

Definition script (fam : Z -> nat -> R) (c : Config) : PyM Output :=
  if decide (N c = 0%nat) then raise ZeroDivisionError else
  let dt := T c / INR (N c) in
  let mu := r c - q c in
  let discount_factor := exp (- r c * T c) in
  _ ← seed fam 42;
  z ← normal 0 1 (M c) (N c);
  let S := asian_fill mu (sigma c) dt (S0 c) (M c) (N c) z in
  let pc := payoff_call S in
  let pp := payoff_put S in
  let price_call := discounted_mean discount_factor pc in
  let price_put := discounted_mean discount_factor pp in
  mret (mkOutput S pc pp price_call price_put
          [plot_histogram pc "Payoff Histogram: Average Strike Call Option" (np_mean_nan pc);
           plot_histogram pp "Payoff Histogram: Average Strike Put Option" (np_mean_nan pp);
           PrintLine (String.append "Price of Average Strike Call Option: $" (format_2f price_call));
           PrintLine (String.append "Price of Average Strike Put Option: $" (format_2f price_put))]).

(** The reference paths: row [i] is [S0] followed by the GBM scan of the
    [i]-th window of [N] draws of the stream seeded with 42. *)
Definition ref_paths (fam : Z -> nat -> R) (c : Config) : list (list R) :=
  map (fun i => S0 c :: gbm_path (growth (r c - q c) (sigma c) (T c / INR (N c))) (S0 c)
                                  (draws (fam 42%Z) (i * N c) (N c)))
      (seq 0 (M c)).

(** The payoffs of a path [row] of at least two prices. *)
Definition call_value (row : list R) : R :=
  Rmax (row.[length row - 1] - Σ (removelast row) / INR (length row - 1)) 0.
Definition put_value (row : list R) : R :=
  Rmax (Σ (removelast row) / INR (length row - 1) - row.[length row - 1]) 0.

(** The shape of the globals the script leaves: [S] is an [M x (N+1)]
    matrix, [payoff_call] and [payoff_put] have one entry per path, and
    the report has two histograms followed by two printed lines. *)
Definition output_wf (c : Config) (out : Output) : Prop :=
  length (S_matrix out) = M c /\ Forall (fun row => length row = S (N c)) (S_matrix out) /\
  length (payoff_call_v out) = M c /\ length (payoff_put_v out) = M c /\
  exists p1 t1 a1 l1 p2 t2 a2 l2 x1 x2,
    events out = [Histogram p1 t1 a1 l1; Histogram p2 t2 a2 l2; PrintLine x1; PrintLine x2].

Lemma seed_run fam k s : seed fam k s = (Ok tt, mkRandomState (fam k) 0).
Proof. reflexivity. Qed.

Lemma script_run fam c s :
  N c <> 0%nat ->
  script fam c s
  = (let S := ref_paths fam c in
     let df := exp (- r c * T c) in
     Ok (mkOutput S (payoff_call S) (payoff_put S)
           (discounted_mean df (payoff_call S)) (discounted_mean df (payoff_put S))
           [plot_histogram (payoff_call S) "Payoff Histogram: Average Strike Call Option"
              (np_mean_nan (payoff_call S));
            plot_histogram (payoff_put S) "Payoff Histogram: Average Strike Put Option"
              (np_mean_nan (payoff_put S));
            PrintLine (String.append "Price of Average Strike Call Option: $"
                         (format_2f (discounted_mean df (payoff_call S))));
            PrintLine (String.append "Price of Average Strike Put Option: $"
                         (format_2f (discounted_mean df (payoff_put S))))]),
     mkRandomState (fam 42%Z) (M c * N c)).
Proof.
  intros HN. unfold script. rewrite decide_False by done.
  rewrite (pym_bind_Ok _ _ _ _ _ (seed_run fam 42 s)).
  rewrite (pym_bind_Ok _ _ _ _ _ (normal_run 0 1 (M c) (N c) _)).
  rewrite asian_fill_gbm.
  - rewrite map_map. unfold mret, PyM_ret.
    match goal with |- context [mkOutput ?X _ _ _ _ _] => replace X with (ref_paths fam c) end;
      [reflexivity|].
    unfold ref_paths. apply map_ext. intros i. cbn [rs_stream rs_pos].
    rewrite Nat.add_0_l. do 2 f_equal.
    rewrite <- (map_id (draws _ _ _)) at 1. apply map_ext. intros g. ring.
  - by rewrite length_map, length_seq.
  - apply Forall_forall. intros zr Hzr. apply list_elem_of_In, in_map_iff in Hzr as [i [<- _]].
    by rewrite length_map, length_draws.
Qed.

Lemma ref_paths_rows fam c :
  Forall (fun row => length row = S (N c)) (ref_paths fam c).
Proof.
  unfold ref_paths. apply Forall_forall. intros row Hrow.
  apply list_elem_of_In, in_map_iff in Hrow as [i [<- _]].
  cbn [length]. by rewrite length_gbm_path, length_draws.
Qed.

Lemma length_ref_paths fam c : length (ref_paths fam c) = M c.
Proof. unfold ref_paths. by rewrite length_map, length_seq. Qed.

Lemma payoffs_ref_paths fam c :
  N c <> 0%nat ->
  payoff_call (ref_paths fam c) = map (fun row => Some (call_value row)) (ref_paths fam c) /\
  payoff_put (ref_paths fam c) = map (fun row => Some (put_value row)) (ref_paths fam c).
Proof.
  intros HN. rewrite payoff_call_rows, payoff_put_rows.
  pose proof (ref_paths_rows fam c) as Hr.
  split; apply map_ext_Forall; eapply Forall_impl; try exact Hr; intros row Hrow; cbn in Hrow.
  - apply avg_call_row_long. lia.
  - apply avg_put_row_long. lia.
Qed.

Lemma ref_paths_nonempty fam c : M c <> 0%nat -> ref_paths fam c <> [].
Proof.
  intros HM H. apply (f_equal length) in H. rewrite length_ref_paths in H. done.
Qed.

Lemma prices_ref_paths fam c :
  N c <> 0%nat -> M c <> 0%nat ->
  discounted_mean (exp (- r c * T c)) (payoff_call (ref_paths fam c))
  = Some (exp (- r c * T c) * (Σ (map call_value (ref_paths fam c)) / INR (M c))) /\
  discounted_mean (exp (- r c * T c)) (payoff_put (ref_paths fam c))
  = Some (exp (- r c * T c) * (Σ (map put_value (ref_paths fam c)) / INR (M c))).
Proof.
  intros HN HM. destruct (payoffs_ref_paths fam c HN) as [-> ->].
  rewrite <- (length_ref_paths fam c).
  split; apply discounted_mean_all_Some, ref_paths_nonempty, HM.
Qed.

Lemma prices_ref_paths_nonneg fam c :
  N c <> 0%nat -> M c <> 0%nat ->
  exists pc pp,
    discounted_mean (exp (- r c * T c)) (payoff_call (ref_paths fam c)) = Some pc /\
    discounted_mean (exp (- r c * T c)) (payoff_put (ref_paths fam c)) = Some pp /\
    0 <= pc /\ 0 <= pp.
Proof.
  intros HN HM. destruct (prices_ref_paths fam c HN HM) as [-> ->].
  do 2 eexists. split; [reflexivity|]. split; [reflexivity|].
  pose proof (exp_pos (- r c * T c)). pose proof (INR_length_pos _ (ref_paths_nonempty fam c HM)).
  rewrite length_ref_paths in *.
  split; apply Rmult_le_pos; try lra; apply Rle_mult_inv_pos; try lra; apply np_sum_nonneg;
    apply Forall_map, Forall_true; intros; apply Rmax_r.
Qed.

(** ** Properties of the script *)

(** C1 When [N > 0], the script raises nothing, leaves the random state
    at draw [M * N] of the stream seeded with 42, and its matrix [S] has
    one row per path: [S0] followed by the GBM scan of the path's own
    window of [N] draws. *)
Theorem script_paths fam c s :
  N c <> 0%nat ->
  exists out, script fam c s = (Ok out, mkRandomState (fam 42%Z) (M c * N c)) /\
    S_matrix out = ref_paths fam c.
Proof. intros HN. rewrite script_run by done. eexists; split; reflexivity. Qed.

(** C2 With [N > 0] steps and [M > 0] paths both printed prices are
    numbers (not NaN) and non-negative. *)
Theorem script_prices_nonneg fam c s :
  N c <> 0%nat -> M c <> 0%nat ->
  exists out s', script fam c s = (Ok out, s') /\
    exists pc pp, price_call out = Some pc /\ price_put out = Some pp /\ 0 <= pc /\ 0 <= pp.
Proof.
  intros HN HM. rewrite script_run by done. do 2 eexists. split; [reflexivity|].
  cbn [price_call price_put]. exact (prices_ref_paths_nonneg fam c HN HM).
Qed.

(** C15 With [N > 0] steps and [M > 0] paths the two printed lines are the
    labels followed by texts that read back as whole non-negative numbers
    of cents, each within half a cent of the computed price: the script
    never prints ["nan"] nor a negative price. *)
Theorem script_prints_prices fam c s :
  N c <> 0%nat -> M c <> 0%nat ->
  exists out s' pc pp, script fam c s = (Ok out, s') /\
    price_call out = Some pc /\ price_put out = Some pp /\
    exists h1 h2 tc tp kc kp,
      events out = [h1; h2; PrintLine (String.append "Price of Average Strike Call Option: $" tc);
                    PrintLine (String.append "Price of Average Strike Put Option: $" tp)] /\
      parse_decimal 2 tc = Some kc /\ Rabs (100 * pc - IZR kc) <= 1 / 2 /\ (0 <= kc)%Z /\
      parse_decimal 2 tp = Some kp /\ Rabs (100 * pp - IZR kp) <= 1 / 2 /\ (0 <= kp)%Z.
Proof.
  intros HN HM. rewrite script_run by done.
  destruct (prices_ref_paths_nonneg fam c HN HM) as (pc & pp & Hc & Hp & Hc0 & Hp0).
  destruct (format_2f_nonneg pc Hc0) as (kc & Hkc). destruct (format_2f_nonneg pp Hp0) as (kp & Hkp).
  do 4 eexists. split; [reflexivity|]. cbn [price_call price_put events].
  rewrite Hc, Hp. split; [done|]. split; [done|].
  do 4 eexists. exists kc, kp. split; [reflexivity|]. tauto.
Qed.

(** Average-strike put-call parity of the script: the call price
    minus the put price is the discounted mean of [S_T - S_avg] over the
    paths. *)
Theorem script_parity fam c s :
  N c <> 0%nat -> M c <> 0%nat ->
  exists out s' pc pp, script fam c s = (Ok out, s') /\
    price_call out = Some pc /\ price_put out = Some pp /\
    pc - pp = exp (- r c * T c) *
      (Σ (map (fun row => row.[length row - 1] - Σ (removelast row) / INR (length row - 1))
              (S_matrix out)) / INR (M c)).
Proof.
  intros HN HM. rewrite script_run by done. do 4 eexists. split; [reflexivity|].
  destruct (prices_ref_paths fam c HN HM) as [Hc Hp]. cbn [price_call price_put S_matrix].
  rewrite Hc, Hp. split; [reflexivity|]. split; [reflexivity|].
  rewrite <- Rmult_minus_distr_l. f_equal. unfold Rdiv. rewrite <- Rmult_minus_distr_r. f_equal.
  rewrite <- np_sum_map_sub. f_equal. apply map_ext. intros row.
  unfold call_value, put_value, Rdiv.
  set (d := row.[length row - 1] - Σ (removelast row) * / INR (length row - 1)).
  replace (Σ (removelast row) * / INR (length row - 1) - row.[length row - 1]) with (- d)
    by (unfold d; ring).
  apply Rmax_parity.
Qed.

(** C27 Determinism: the script reseeds before drawing, so what it
    computes does not depend on the random state it starts from. *)
Theorem script_reseeds fam c s1 s2 : (script fam c s1).1 = (script fam c s2).1.
Proof.
  destruct (decide (N c = 0%nat)) as [HN|HN].
  - unfold script. by rewrite decide_True.
  - by rewrite !script_run.
Qed.

(** C26 With [N > 0] steps and [M = 0] paths the script raises nothing:
    the matrix is empty, both prices are NaN and both printed lines end
    in ["nan"]. *)
Theorem script_zero_paths fam c s :
  N c <> 0%nat -> M c = 0%nat ->
  exists out s', script fam c s = (Ok out, s') /\
    S_matrix out = [] /\ price_call out = None /\ price_put out = None /\
    exists h1 h2, events out = [h1; h2; PrintLine "Price of Average Strike Call Option: $nan";
                                PrintLine "Price of Average Strike Put Option: $nan"].
Proof.
  intros HN HM. rewrite script_run by done. do 2 eexists. split; [reflexivity|].
  cbn [S_matrix price_call price_put events]. unfold ref_paths. rewrite HM.
  split; [done|]. split; [done|]. split; [done|]. by do 2 eexists.
Qed.

(** C17 Type of the script's globals: when [N > 0] the script raises
    nothing and leaves an [M x (N+1)] price matrix, call and put payoff
    vectors of length [M], and a report of two histograms and two
    printed lines. *)
Theorem script_output_wf fam c s :
  N c <> 0%nat -> exists out s', script fam c s = (Ok out, s') /\ output_wf c out.
Proof.
  intros HN. rewrite script_run by done. do 2 eexists. split; [reflexivity|].
  destruct (payoffs_ref_paths fam c HN) as [Hc Hp].
  repeat split; cbn [S_matrix payoff_call_v payoff_put_v events];
    rewrite ?Hc, ?Hp, ?length_map; try apply length_ref_paths; try apply ref_paths_rows.
  by do 10 eexists.
Qed.

(** ** Concrete instances of the theorems, on the parameters of the script *)

Lemma script_paths_witness :
  N config <> 0%nat /\
  exists out, script (fun _ _ => 0) config zero_state
              = (Ok out, mkRandomState (fun _ => 0) (M config * N config)) /\
    S_matrix out = ref_paths (fun _ _ => 0) config.
Proof. split; [cbn; lia|]. apply script_paths. cbn; lia. Defined.

Lemma script_prices_nonneg_witness :
  N config <> 0%nat /\ M config <> 0%nat /\
  exists out s', script (fun _ _ => 0) config zero_state = (Ok out, s') /\
    exists pc pp, price_call out = Some pc /\ price_put out = Some pp /\ 0 <= pc /\ 0 <= pp.
Proof.
  assert (HN : N config <> 0%nat) by (cbn; lia).
  assert (HM : M config <> 0%nat) by (vm_compute; discriminate).
  split; [done|]. split; [done|]. by apply script_prices_nonneg.
Defined.

Lemma script_parity_witness :
  exists out s' pc pp, script (fun _ _ => 0) config zero_state = (Ok out, s') /\
    price_call out = Some pc /\ price_put out = Some pp /\
    pc - pp = exp (- r config * T config) *
      (Σ (map (fun row => row.[length row - 1] - Σ (removelast row) / INR (length row - 1))
              (S_matrix out)) / INR (M config)).
Proof.
  apply script_parity; [cbn; lia | vm_compute; discriminate].
Defined.

Lemma script_prints_prices_witness :
  N config <> 0%nat /\ M config <> 0%nat /\
  exists out s' pc pp, script (fun _ _ => 0) config zero_state = (Ok out, s') /\
    price_call out = Some pc /\ price_put out = Some pp /\
    exists h1 h2 tc tp kc kp,
      events out = [h1; h2; PrintLine (String.append "Price of Average Strike Call Option: $" tc);
                    PrintLine (String.append "Price of Average Strike Put Option: $" tp)] /\
      parse_decimal 2 tc = Some kc /\ Rabs (100 * pc - IZR kc) <= 1 / 2 /\ (0 <= kc)%Z /\
      parse_decimal 2 tp = Some kp /\ Rabs (100 * pp - IZR kp) <= 1 / 2 /\ (0 <= kp)%Z.
Proof.
  assert (HN : N config <> 0%nat) by (cbn; lia).
  assert (HM : M config <> 0%nat) by (vm_compute; discriminate).
  split; [done|]. split; [done|]. by apply script_prints_prices.
Defined.

Lemma script_output_wf_witness :
  N config <> 0%nat /\
  exists out s', script (fun _ _ => 0) config zero_state = (Ok out, s') /\ output_wf config out.
Proof. split; [cbn; lia|]. apply script_output_wf. cbn; lia. Defined.

Lemma script_zero_paths_witness :
  exists out s', script (fun _ _ => 0) (mkConfig 100 0.05 0.02 0.4 0.75 250 0) zero_state
                 = (Ok out, s') /\
    S_matrix out = [] /\ price_call out = None /\ price_put out = None /\
    exists h1 h2, events out = [h1; h2; PrintLine "Price of Average Strike Call Option: $nan";
                                PrintLine "Price of Average Strike Put Option: $nan"].
Proof. apply script_zero_paths; cbn; lia. Defined.

End Asian.
